(** * SehatGuru backend: token and session lifecycle

    A shallow embedding of the authentication core of the backend
    ([app/utils/jwt.py], [app/models/token_blacklist.py],
    [app/middleware/auth.py], [app/utils/email.py],
    [app/services/auth_service.py], [app/routes/auth.py]) and the
    properties its specification states about it.

    Conventions.
    - A [datetime] is a [Z]: microseconds since the Unix epoch, naive UTC.
      [timegm] gives the whole seconds a JWT carries.
    - A Python exception is a value of [exn]; a handler is a state
      transformer over [World] that returns [exn + A] and the world it left
      behind (effects made before a [raise] stay).
    - The collaborators the sources call but do not contain (the JOSE
      library, Firebase Auth, Google's verifier, the password hashing
      helpers of [app/utils/password.py]) are fields of an [Env]; Firestore,
      the SMTP server and the wall clock are part of the [World].
    - The clock stands still while one handler runs and moves between
      requests ([Outside]). *)

From Stdlib Require Import ZArith Lia Ascii String.
From stdpp Require Import base option list gmap sets strings countable.

Open Scope string_scope.
Open Scope Z_scope.

(** ** Exceptions *)

Inductive error_class :=
  | JWTError | AttributeError | TypeError | ValueError | OtherError.

(** [HTTPException] is FastAPI's; [Error cls msg] is any other exception,
    with [msg] what [str(e)] gives. *)
Inductive exn :=
  | HTTPException (status_code : Z) (detail : string)
                  (headers : list (string * string))
  | Error (cls : error_class) (msg : string).

Definition bearer_headers : list (string * string) :=
  [("WWW-Authenticate", "Bearer")].

(** ** Data model *)

(** [app/models/auth.py], [TokenData]: the declared fields, nothing else. *)
Record TokenData := mkTokenData {
  uid : string;
  email : option string;
  token_type : string
}.

(** [app/models/auth.py], [Token]. *)
Record Token := mkToken {
  access_token : string;
  refresh_token : string;
  bearer_type : string;
  expires_in : Z
}.

(** The payload of a JWT as this program reads and writes it: a JSON object
    with an integer [exp] and [iat] and a string [sub], [email] and
    [token_type], each of which may be missing ([None]). For [email] and
    [token_type], which only [payload.get] looks at, [None] also stands for
    a null value. A payload that is anything else (a null [exp], a subject
    that is not a string, one of the optional claims [nbf], [aud], [jti],
    [at_hash], which this program never writes) is not a [Claims]. *)
Record Claims := mkClaims {
  c_sub : option string;
  c_email : option string;
  c_exp : option Z;
  c_iat : option Z;
  c_token_type : option string
}.

(** A document of the Firestore collection [users]; [dict.get] of a key
    that is missing is [None]. *)
Record UserDoc := mkUserDoc {
  d_email : option string;
  d_full_name : option string;
  d_email_verified : option bool;
  d_created_at : option Z;
  d_updated_at : option Z;
  d_auth_provider : option string;
  d_hashed_password : option string;
  d_password_changed_at : option Z;
  d_photo_url : option string;
  d_google_uid : option string;
  d_last_login : option Z
}.

(** A message handed to the SMTP server; the two bodies are templates
    around [m_link] and are not spelled out. *)
Record Mail := mkMail {
  m_to : string;
  m_subject : string;
  m_link : string
}.

(** A Firebase Auth user record, as far as the program reads it. *)
Record AuthUser := mkAuthUser {
  au_uid : string;
  au_email : string;
  au_email_verified : bool
}.

(** What Google's verifier returns for an ID token. *)
Record IdInfo := mkIdInfo {
  g_email : option string;
  g_name : option string;
  g_sub : option string;
  g_picture : option string
}.

(** [UserRegister], [UserLogin]. *)
Record UserRegister := mkUserRegister {
  r_full_name : string;
  r_email : string;
  r_password : string
}.

Record UserLogin := mkUserLogin {
  l_email : string;
  l_password : string
}.

(** The dictionary [register_user] returns. *)
Record RegisteredUser := mkRegisteredUser {
  ru_uid : string;
  ru_email : string;
  ru_full_name : string;
  ru_email_verified : bool;
  ru_created_at : Z
}.

(** ** The world and the collaborators *)

Record World := mkWorld {
  blacklist : gset string;            (* TokenBlacklist._blacklist *)
  users : list (string * UserDoc);    (* Firestore collection, by document id *)
  clock : Z;                          (* datetime.utcnow() *)
  firestore_fault : option string;    (* Some msg: every Firestore call raises *)
  smtp_fault : option string;         (* Some msg: the SMTP session raises *)
  outbox : list Mail                  (* messages the SMTP server accepted *)
}.

Record Env := mkEnv {
  (* app/config/settings.py *)
  ACCESS_TOKEN_EXPIRE_MINUTES : Z;
  REFRESH_TOKEN_EXPIRE_DAYS : Z;
  FRONTEND_URL : string;
  GOOGLE_CLIENT_ID : string;
  (* app/utils/password.py *)
  hash_password : string -> string;
  verify_password : string -> string -> bool;
  (* python-jose under JWT_SECRET_KEY and JWT_ALGORITHM: signing a payload,
     and checking a token's signature and parsing its payload (or the
     library's error message). [jws_verify] answers [inr] only for a token
     whose signature verifies and whose payload is a [Claims]. Every other
     token is rejected with a message, which [jwt_decode] raises as a
     JWTError; the library's TypeError for a null [exp] or [iat] is not
     told apart from it. *)
  jws_sign : Claims -> string;
  jws_verify : string -> string + Claims;
  (* firebase_admin.auth: the SDK's error message or its result *)
  auth_create_user : string -> option string -> option string -> string + AuthUser;
  auth_get_user : string -> string + AuthUser;
  auth_get_user_by_email : string -> string + AuthUser;
  auth_update_user : string -> string -> string + AuthUser;
  auth_generate_email_verification_link : string -> string + string;
  (* google.oauth2.id_token.verify_oauth2_token *)
  verify_oauth2_token : string -> string -> string + IdInfo
}.

(** The contract of the JOSE library this development relies on: a token
    signed under the configured key verifies under it and carries the
    payload that was signed. *)
Definition jose_contract (E : Env) : Prop :=
  forall c : Claims, jws_verify E (jws_sign E c) = inr c.

(** ** Handlers as state transformers *)

Definition Res (A : Type) : Type := (exn + A)%type.
Definition M (A : Type) : Type := World -> Res A * World.

Definition ret {A} (a : A) : M A := fun w => (inr a, w).
Definition raise {A} (e : exn) : M A := fun w => (inl e, w).
Definition bind {A B} (m : M A) (k : A -> M B) : M B :=
  fun w => match m w with
           | (inr a, w') => k a w'
           | (inl e, w') => (inl e, w')
           end.

(** [try: m except ... as e: h e] *)
Definition try_except {A} (m : M A) (h : exn -> M A) : M A :=
  fun w => match m w with
           | (inr a, w') => (inr a, w')
           | (inl e, w') => h e w'
           end.

Notation "x <- m ;; k" := (bind m (fun x => k))
  (at level 100, m at next level, right associativity).
Notation "m ;;; k" := (bind m (fun _ => k))
  (at level 100, right associativity).

(** ** Time *)

Definition utcnow : M Z := fun w => (inr (clock w), w).

Definition MICROS : Z := 1000000.
Definition timedelta_minutes (m : Z) : Z := m * 60 * MICROS.
Definition timedelta_hours (h : Z) : Z := h * 3600 * MICROS.
Definition timedelta_days (d : Z) : Z := d * 86400 * MICROS.

(** [calendar.timegm(dt.utctimetuple())]: the microseconds are dropped. *)
Definition timegm (dt : Z) : Z := dt / MICROS.



(** ** [app/models/token_blacklist.py] *)

Module TokenBlacklist.

(** [add_token(token, expires_at=None)]; [expires_at] is not used. *)
Definition add_token (token : string) : M unit :=
  fun w => (inr tt,
            mkWorld ({[token]} ∪ blacklist w) (users w) (clock w)
                    (firestore_fault w) (smtp_fault w) (outbox w)).

Definition is_blacklisted (token : string) : M bool :=
  fun w => (inr (bool_decide (token ∈ blacklist w)), w).

Definition remove_token (token : string) : M unit :=
  fun w => (inr tt,
            mkWorld (blacklist w ∖ {[token]}) (users w) (clock w)
                    (firestore_fault w) (smtp_fault w) (outbox w)).

Definition clear_all : M unit :=
  fun w => (inr tt,
            mkWorld ∅ (users w) (clock w)
                    (firestore_fault w) (smtp_fault w) (outbox w)).

End TokenBlacklist.

(** ** Firestore: the collection [users] *)

Module Firestore.

Fixpoint doc_lookup (id : string) (c : list (string * UserDoc)) : option UserDoc :=
  match c with
  | [] => None
  | (k, d) :: c' => if String.eqb k id then Some d else doc_lookup id c'
  end.

Fixpoint doc_store (id : string) (d : UserDoc) (c : list (string * UserDoc))
  : list (string * UserDoc) :=
  match c with
  | [] => [(id, d)]
  | (k, d0) :: c' =>
      if String.eqb k id then (k, d) :: c' else (k, d0) :: doc_store id d c'
  end.

Definition has_email (e : string) (p : string * UserDoc) : bool :=
  match d_email (snd p) with
  | Some e' => String.eqb e' e
  | None => false
  end.

Definition with_users (c : list (string * UserDoc)) (w : World) : World :=
  mkWorld (blacklist w) c (clock w) (firestore_fault w) (smtp_fault w) (outbox w).

(** Every call goes to the service, which may be failing. *)
Definition call {A} (f : M A) : M A :=
  fun w => match firestore_fault w with
           | Some msg => (inl (Error OtherError msg), w)
           | None => f w
           end.

(** [users_ref.where("email", "==", e).limit(1).get()], as a list. *)
Definition where_email_limit_1 (e : string) : M (list (string * UserDoc)) :=
  call (fun w => (inr (take 1 (List.filter (has_email e) (users w))), w)).

(** [users_ref.document(id).get()]; [None] when [exists] is false. *)
Definition get (id : string) : M (option UserDoc) :=
  call (fun w => (inr (doc_lookup id (users w)), w)).

(** [users_ref.document(id).set(d)] *)
Definition set (id : string) (d : UserDoc) : M unit :=
  call (fun w => (inr tt, with_users (doc_store id d (users w)) w)).

(** [users_ref.document(id).update(fields)]: the document has to exist. *)
Definition update (id : string) (f : UserDoc -> UserDoc) : M unit :=
  call (fun w => match doc_lookup id (users w) with
                 | Some d => (inr tt, with_users (doc_store id (f d) (users w)) w)
                 | None => (inl (Error OtherError ("404 No document to update: " +:+ id)), w)
                 end).

End Firestore.

(** The fields the handlers write with [update]. *)
Definition set_updated_at (t : Z) (d : UserDoc) : UserDoc :=
  mkUserDoc (d_email d) (d_full_name d) (d_email_verified d) (d_created_at d)
            (Some t) (d_auth_provider d) (d_hashed_password d)
            (d_password_changed_at d) (d_photo_url d) (d_google_uid d)
            (d_last_login d).

Definition set_last_login (t : Z) (d : UserDoc) : UserDoc :=
  mkUserDoc (d_email d) (d_full_name d) (d_email_verified d) (d_created_at d)
            (d_updated_at d) (d_auth_provider d) (d_hashed_password d)
            (d_password_changed_at d) (d_photo_url d) (d_google_uid d)
            (Some t).

Definition set_email_verified (b : bool) (d : UserDoc) : UserDoc :=
  mkUserDoc (d_email d) (d_full_name d) (Some b) (d_created_at d)
            (d_updated_at d) (d_auth_provider d) (d_hashed_password d)
            (d_password_changed_at d) (d_photo_url d) (d_google_uid d)
            (d_last_login d).

Definition set_hashed_password (h : string) (d : UserDoc) : UserDoc :=
  mkUserDoc (d_email d) (d_full_name d) (d_email_verified d) (d_created_at d)
            (d_updated_at d) (d_auth_provider d) (Some h)
            (d_password_changed_at d) (d_photo_url d) (d_google_uid d)
            (d_last_login d).

Definition set_password_changed_at (t : Z) (d : UserDoc) : UserDoc :=
  mkUserDoc (d_email d) (d_full_name d) (d_email_verified d) (d_created_at d)
            (d_updated_at d) (d_auth_provider d) (d_hashed_password d)
            (Some t) (d_photo_url d) (d_google_uid d)
            (d_last_login d).

(** ** [app/config/firebase.py]: the wrappers around [firebase_admin.auth] *)

Module firebase_client.

Definition wrap {A} (prefix : string) (r : string + A) : M A :=
  match r with
  | inr a => ret a
  | inl msg => raise (Error ValueError (prefix +:+ msg))
  end.

Definition get_user (E : Env) (id : string) : M AuthUser :=
  wrap "User not found: " (auth_get_user E id).

(** [create_user(email, password=None, display_name=None, **kwargs)] *)
Definition create_user (E : Env) (e : string) (password display_name : option string)
  : M AuthUser :=
  wrap "Error creating user: " (auth_create_user E e password display_name).

Definition update_user (E : Env) (id : string) (password : string) : M AuthUser :=
  wrap "Error updating user: " (auth_update_user E id password).

Definition generate_email_verification_link (E : Env) (e : string) : M string :=
  wrap "Error generating verification link: "
       (auth_generate_email_verification_link E e).

(** [firebase_client.get_auth().get_user_by_email(email)]: the SDK itself. *)
Definition get_user_by_email (E : Env) (e : string) : M AuthUser :=
  match auth_get_user_by_email E e with
  | inr a => ret a
  | inl msg => raise (Error OtherError msg)
  end.

End firebase_client.

(** ** [app/utils/email.py] *)

Definition push_mail (m : Mail) (w : World) : World :=
  mkWorld (blacklist w) (users w) (clock w) (firestore_fault w) (smtp_fault w)
          (outbox w ++ [m]).

(** [send_email]: whatever the SMTP session raises is printed and turned
    into [False]. *)
Definition send_email (m : Mail) : M bool :=
  fun w => match smtp_fault w with
           | Some _ => (inr false, w)
           | None => (inr true, push_mail m w)
           end.

Definition send_verification_email (e verification_link : string) : M bool :=
  send_email (mkMail e "Verify your SehatGuru account" verification_link).

Definition send_password_reset_email (e reset_link : string) : M bool :=
  send_email (mkMail e "Reset your SehatGuru password" reset_link).

(** ** [app/utils/jwt.py] *)

(** [str(x)] of an optional string, as an f-string prints it. *)
Definition pystr (o : option string) : string :=
  match o with Some s => s | None => "None" end.

(** [if expires_delta:] a missing or zero [timedelta] is false. *)
Definition timedelta_truthy (d : option Z) : option Z :=
  match d with
  | Some x => if x =? 0 then None else Some x
  | None => None
  end.

(** [jose.jwt.decode(token, key, algorithms=[alg])]: the signature first,
    then the expiry claim against the clock in whole seconds. ([jwt.encode]
    writes a [datetime] claim as [timegm] of it.) The library's other claim
    checks concern payloads that are not a [Claims] and are part of
    [jws_verify]. *)
Definition jwt_decode (E : Env) (token : string) : M Claims :=
  match jws_verify E token with
  | inl msg => raise (Error JWTError msg)
  | inr payload =>
      now <- utcnow ;;
      match c_exp payload with
      | Some e =>
          if e <? timegm now
          then raise (Error JWTError "Signature has expired.")
          else ret payload
      | None => ret payload
      end
  end.

(** [expire] is a sum in [Z]; see [in_datetime_range]. *)
Definition create_access_token (E : Env) (data : Claims) (expires_delta : option Z)
  : M string :=
  now <- utcnow ;;
  let expire :=
    match timedelta_truthy expires_delta with
    | Some d => now + d
    | None => now + timedelta_minutes (ACCESS_TOKEN_EXPIRE_MINUTES E)
    end in
  iat <- utcnow ;;
  ret (jws_sign E (mkClaims (c_sub data) (c_email data)
                            (Some (timegm expire)) (Some (timegm iat))
                            (Some "access"))).

Definition create_refresh_token (E : Env) (data : Claims) (expires_delta : option Z)
  : M string :=
  now <- utcnow ;;
  let expire :=
    match timedelta_truthy expires_delta with
    | Some d => now + d
    | None => now + timedelta_days (REFRESH_TOKEN_EXPIRE_DAYS E)
    end in
  iat <- utcnow ;;
  ret (jws_sign E (mkClaims (c_sub data) (c_email data)
                            (Some (timegm expire)) (Some (timegm iat))
                            (Some "refresh"))).

(** [except JWTError as e: raise JWTError(prefix + str(e))] *)
Definition rewrap_JWTError {A} (prefix : string) (e : exn) : M A :=
  match e with
  | Error JWTError msg => raise (Error JWTError (prefix +:+ msg))
  | _ => raise e
  end.

Definition verify_token (E : Env) (token : string) (expected : string) : M TokenData :=
  try_except
    (payload <- jwt_decode E token ;;
     match c_sub payload with
     | None => raise (Error JWTError "Token missing subject (uid)")
     | Some sub =>
         if negb (bool_decide (c_token_type payload = Some expected))
         then raise (Error JWTError
                       ("Invalid token type. Expected " +:+ expected +:+
                        ", got " +:+ pystr (c_token_type payload)))
         else ret (mkTokenData sub (c_email payload) expected)
     end)
    (rewrap_JWTError "Could not validate token: ").

Definition create_password_reset_token (E : Env) (e : string) : M string :=
  now <- utcnow ;;
  let expire := now + timedelta_hours 1 in
  iat <- utcnow ;;
  ret (jws_sign E (mkClaims (Some e) None (Some (timegm expire))
                            (Some (timegm iat)) (Some "password_reset"))).

Definition verify_password_reset_token (E : Env) (token : string) : M string :=
  try_except
    (payload <- jwt_decode E token ;;
     match c_sub payload with
     | None => raise (Error JWTError "Token missing email")
     | Some e =>
         if negb (bool_decide (c_token_type payload = Some "password_reset"))
         then raise (Error JWTError "Invalid token type for password reset")
         else ret e
     end)
    (rewrap_JWTError "Invalid or expired reset token: ").

(** ** [app/middleware/auth.py] *)

(** A Python value, as far as an attribute of a [TokenData] is used. *)
Inductive pyval :=
  | PyNone
  | PyStr (s : string)
  | PyInt (z : Z).

Definition truthy (v : pyval) : bool :=
  match v with
  | PyNone => false
  | PyStr s => negb (String.eqb s "")
  | PyInt z => negb (z =? 0)
  end.

(** [obj.name] on a [TokenData]: a declared field, or [AttributeError]. *)
Definition TokenData_getattr (t : TokenData) (name : string) : M pyval :=
  if String.eqb name "uid" then ret (PyStr (uid t))
  else if String.eqb name "email" then
    ret (match email t with Some e => PyStr e | None => PyNone end)
  else if String.eqb name "token_type" then ret (PyStr (token_type t))
  else raise (Error AttributeError
                ("'TokenData' object has no attribute '" +:+ name +:+ "'")).

(** [datetime.utcfromtimestamp(v)] *)
Definition utcfromtimestamp (v : pyval) : M Z :=
  match v with
  | PyInt z => ret (z * MICROS)
  | PyStr _ => raise (Error TypeError "an integer is required (got type str)")
  | PyNone => raise (Error TypeError "an integer is required (got type NoneType)")
  end.

(** [except HTTPException: raise] and then
    [except Exception as e: raise HTTPException(status, prefix + str(e), headers)] *)
Definition reraise_http {A} (status : Z) (prefix : string)
    (headers : list (string * string)) (e : exn) : M A :=
  match e with
  | HTTPException _ _ _ => raise e
  | Error _ msg => raise (HTTPException status (prefix +:+ msg) headers)
  end.

(** The same with an [except JWTError as e] clause before the last one. *)
Definition reraise_http_jwt {A} (jwt_prefix prefix : string) (e : exn) : M A :=
  match e with
  | HTTPException _ _ _ => raise e
  | Error JWTError msg =>
      raise (HTTPException 401 (jwt_prefix +:+ msg) bearer_headers)
  | Error _ msg =>
      raise (HTTPException 401 (prefix +:+ msg) bearer_headers)
  end.

(** [get_current_user]; [token] is [credentials.credentials]. The test
    [token_data.uid is None] cannot fire on a [TokenData], whose [uid] is a
    string. *)
Definition get_current_user (E : Env) (token : string) : M TokenData :=
  try_except
    (revoked <- TokenBlacklist.is_blacklisted token ;;
     if revoked : bool
     then raise (HTTPException 401 "Token has been revoked. Please login again."
                               bearer_headers)
     else verify_token E token "access")
    (reraise_http_jwt "Invalid token: " "Authentication error: ").

(** The best-effort copy of Firebase Auth's [email_verified] flag. *)
Definition sync_email_verified (E : Env) (id : string) (user_data : UserDoc)
  : M UserDoc :=
  try_except
    (firebase_user <- firebase_client.get_user E id ;;
     let firebase_email_verified := au_email_verified firebase_user in
     if negb (bool_decide (d_email_verified user_data = Some firebase_email_verified))
     then
       now <- utcnow ;;
       Firestore.update id (fun d => set_updated_at now
                                       (set_email_verified firebase_email_verified d)) ;;;
       ret (set_email_verified firebase_email_verified user_data)
     else ret user_data)
    (fun _ => ret user_data).

(** [get_current_active_user]; the result is [user_data] with its ["uid"]. *)
Definition get_current_active_user (E : Env) (current_user : TokenData)
  : M (string * UserDoc) :=
  try_except
    (user_doc <- Firestore.get (uid current_user) ;;
     match user_doc with
     | None => raise (HTTPException 404 "User not found" [])
     | Some user_data =>
         (* if current_user.iat and user_data.get("password_changed_at"): *)
         iat <- TokenData_getattr current_user "iat" ;;
         (match (if truthy iat then d_password_changed_at user_data else None) with
          | Some password_changed_at =>
              iat' <- TokenData_getattr current_user "iat" ;;
              token_issued_at <- utcfromtimestamp iat' ;;
              if password_changed_at >? token_issued_at
              then raise (HTTPException 401
                     "Your password was changed. Please login again with your new password."
                     bearer_headers)
              else ret tt
          | None => ret tt
          end) ;;;
         user_data' <- sync_email_verified E (uid current_user) user_data ;;
         ret (uid current_user, user_data')
     end)
    (reraise_http 500 "Error fetching user data: " []).

(** [verify_refresh_token] *)
Definition verify_refresh_token (E : Env) (token : string) : M TokenData :=
  try_except
    (verify_token E token "refresh")
    (reraise_http_jwt "Invalid refresh token: " "Token verification error: ").

(** The dependency chain of a route declared with
    [Depends(get_current_active_user)], such as [/me]. *)
Definition session_guard (E : Env) (token : string) : M (string * UserDoc) :=
  current_user <- get_current_user E token ;;
  get_current_active_user E current_user.

(** ** [app/services/auth_service.py] *)

Module AuthService.

(** [if not s:] on an optional string. *)
Definition nonempty (o : option string) : option string :=
  match o with
  | Some s => if String.eqb s "" then None else Some s
  | None => None
  end.

(** The three lines that end [login_user], [google_auth] and
    [refresh_access_token] alike: the payload, the two tokens, the answer. *)
Definition issue_tokens (E : Env) (id : string) (e : option string) : M Token :=
  let token_data := mkClaims (Some id) e None None None in
  access <- create_access_token E token_data None ;;
  refresh <- create_refresh_token E token_data None ;;
  ret (mkToken access refresh "bearer" (ACCESS_TOKEN_EXPIRE_MINUTES E * 60)).

Definition register_user (E : Env) (user_data : UserRegister) : M RegisteredUser :=
  try_except
    (existing_user <- Firestore.where_email_limit_1 (r_email user_data) ;;
     if (0 <? Z.of_nat (length existing_user))
     then raise (HTTPException 400 "Email already registered" [])
     else
       firebase_user <- firebase_client.create_user E (r_email user_data)
                          (nonempty (Some (r_password user_data)))
                          (Some (r_full_name user_data)) ;;
       let hashed_password := hash_password E (r_password user_data) in
       now <- utcnow ;;
       let user_doc_data :=
         mkUserDoc (Some (r_email user_data)) (Some (r_full_name user_data))
                   (Some false) (Some now) (Some now) (Some "email")
                   (Some hashed_password) (Some now) None None None in
       Firestore.set (au_uid firebase_user) user_doc_data ;;;
       try_except
         (verification_link <-
            firebase_client.generate_email_verification_link E (r_email user_data) ;;
          _ <- send_verification_email (r_email user_data) verification_link ;;
          ret tt)
         (fun _ => ret tt) ;;;
       ret (mkRegisteredUser (au_uid firebase_user) (au_email firebase_user)
                             (r_full_name user_data) false now))
    (reraise_http 500 "Registration failed: " []).

Definition login_user (E : Env) (login_data : UserLogin) : M Token :=
  try_except
    (users_list <- Firestore.where_email_limit_1 (l_email login_data) ;;
     match users_list with
     | [] => raise (HTTPException 401 "Invalid email or password" [])
     | (id, user_data) :: _ =>
         match nonempty (d_hashed_password user_data) with
         | None =>
             if bool_decide (d_auth_provider user_data = Some "google")
             then raise (HTTPException 400
                    "This account uses Google Sign-In. Please login with Google." [])
             else raise (HTTPException 401 "Invalid email or password" [])
         | Some stored_password =>
             if negb (verify_password E (l_password login_data) stored_password)
             then raise (HTTPException 401 "Invalid email or password" [])
             else
               last_login <- utcnow ;;
               updated_at <- utcnow ;;
               Firestore.update id (fun d => set_updated_at updated_at
                                               (set_last_login last_login d)) ;;;
               issue_tokens E id (Some (l_email login_data))
         end
     end)
    (reraise_http 500 "Login failed: " []).

Definition google_auth (E : Env) (id_token_str : string) : M Token :=
  try_except
    (idinfo <- match verify_oauth2_token E id_token_str (GOOGLE_CLIENT_ID E) with
               | inr i => ret i
               | inl msg => raise (Error ValueError msg)
               end ;;
     match nonempty (g_email idinfo) with
     | None => raise (HTTPException 400 "Email not provided by Google" [])
     | Some e =>
         existing_users_list <- Firestore.where_email_limit_1 e ;;
         id <- match existing_users_list with
               | (id, _) :: _ =>
                   now <- utcnow ;;
                   Firestore.update id (set_updated_at now) ;;;
                   ret id
               | [] =>
                   id <- try_except
                           (firebase_user <- firebase_client.create_user E e None
                                               (g_name idinfo) ;;
                            ret (au_uid firebase_user))
                           (fun err =>
                              try_except
                                (firebase_user <- firebase_client.get_user_by_email E e ;;
                                 ret (au_uid firebase_user))
                                (fun _ => raise err)) ;;
                   created_at <- utcnow ;;
                   updated_at <- utcnow ;;
                   let user_doc_data :=
                     mkUserDoc (Some e) (g_name idinfo) (Some true)
                               (Some created_at) (Some updated_at) (Some "google")
                               None None (g_picture idinfo) (g_sub idinfo) None in
                   Firestore.set id user_doc_data ;;;
                   ret id
               end ;;
         issue_tokens E id (Some e)
     end)
    (reraise_http 401 "Google authentication failed: " []).

Definition refresh_access_token (E : Env) (id : string) (e : option string) : M Token :=
  issue_tokens E id e.

Definition request_password_reset (E : Env) (e : string) : M bool :=
  try_except
    (user_query <- Firestore.where_email_limit_1 e ;;
     if (Z.of_nat (length user_query) =? 0)
     then ret true
     else
       reset_token <- create_password_reset_token E e ;;
       let reset_link := FRONTEND_URL E +:+ "/reset-password?token=" +:+ reset_token in
       _ <- send_password_reset_email e reset_link ;;
       ret true)
    (fun _ => ret true).

Definition reset_password (E : Env) (token new_password : string) : M bool :=
  try_except
    (e <- verify_password_reset_token E token ;;
     users_list <- Firestore.where_email_limit_1 e ;;
     match users_list with
     | [] => raise (HTTPException 404 "User not found" [])
     | (id, user_data) :: _ =>
         if bool_decide (d_auth_provider user_data = Some "google")
         then raise (HTTPException 400
                "This account uses Google Sign-In. Password cannot be reset." [])
         else
           _ <- firebase_client.update_user E id new_password ;;
           now <- utcnow ;;
           let new_hashed_password := hash_password E new_password in
           Firestore.update id
             (fun d => set_updated_at now
                         (set_password_changed_at now
                            (set_hashed_password new_hashed_password d))) ;;;
           ret true
     end)
    (reraise_http 400 "Password reset failed: " []).

End AuthService.

(** ** [app/routes/auth.py] *)

Record MessageResponse := mkMessageResponse {
  message : string;
  success : bool
}.

Definition logout (token : string) : M MessageResponse :=
  TokenBlacklist.add_token token ;;;
  ret (mkMessageResponse "Logged out successfully. Token has been revoked." true).

Definition forgot_password (E : Env) (e : string) : M MessageResponse :=
  _ <- AuthService.request_password_reset E e ;;
  ret (mkMessageResponse "If the email exists, a password reset link has been sent." true).

Definition reset_password (E : Env) (token new_password : string) : M MessageResponse :=
  _ <- AuthService.reset_password E token new_password ;;
  ret (mkMessageResponse "Password has been reset successfully." true).

Definition refresh_token_route (E : Env) (token : string) : M Token :=
  token_data <- verify_refresh_token E token ;;
  AuthService.refresh_access_token E (uid token_data) (email token_data).

(** ** A reference instance of the collaborators

    A toy JOSE codec (the payload's code as a string of binary digits) and
    fixed answers for the other services: enough to run the handlers. *)

Module Demo.

Global Instance Claims_eq_dec : EqDecision Claims.
Proof. solve_decision. Defined.

Definition Claims_to_tuple (c : Claims) :=
  (c_sub c, c_email c, c_exp c, c_iat c, c_token_type c).

Definition Claims_of_tuple
    (t : option string * option string * option Z * option Z * option string)
  : Claims :=
  let '(a, b, c, d, e) := t in mkClaims a b c d e.

Global Instance Claims_countable : Countable Claims.
Proof.
  apply (inj_countable' Claims_to_tuple Claims_of_tuple).
  intros []; reflexivity.
Defined.

Fixpoint bits_of_pos (p : positive) : string :=
  match p with
  | xH => ""
  | xO p' => String "0"%char (bits_of_pos p')
  | xI p' => String "1"%char (bits_of_pos p')
  end.

Fixpoint pos_of_bits (s : string) : option positive :=
  match s with
  | EmptyString => Some xH
  | String a s' =>
      if Ascii.eqb a "0"%char then xO <$> pos_of_bits s'
      else if Ascii.eqb a "1"%char then xI <$> pos_of_bits s'
      else None
  end.

Definition sign (c : Claims) : string := bits_of_pos (encode c).

Definition verify (token : string) : string + Claims :=
  match pos_of_bits token ≫= decode with
  | Some c => inr c
  | None => inl "Signature verification failed."
  end.

Definition env : Env :=
  mkEnv 30 7 "http://localhost:3000" "client-id"
        (fun p => "hash:" +:+ p)
        (fun p h => String.eqb ("hash:" +:+ p) h)
        sign verify
        (fun e _ _ => inr (mkAuthUser ("uid-" +:+ e) e false))
        (fun id => inr (mkAuthUser id "someone@example.com" false))
        (fun e => inr (mkAuthUser ("uid-" +:+ e) e false))
        (fun id _ => inr (mkAuthUser id "someone@example.com" false))
        (fun e => inr ("https://verify.example/" +:+ e))
        (fun t _ => inr (mkIdInfo (Some t) (Some "G User") (Some "g-sub") None)).

(** A world with nothing in it, at time [t]. *)
Definition empty_world (t : Z) : World := mkWorld ∅ [] t None None [].

Definition at_time (t : Z) (w : World) : World :=
  mkWorld (blacklist w) (users w) t (firestore_fault w) (smtp_fault w) (outbox w).

End Demo.


(** ** A scenario on the reference instance

    Alice registers at second 0 and logs in at second 5; her password is
    reset at second 10 with a reset token minted at second 9; she logs in
    again at second 12. *)

Module Scenario.

Definition seconds (n : Z) : Z := n * MICROS.

Definition alice : UserRegister :=
  mkUserRegister "Alice" "alice@example.com" "oldpass123".

Definition tokens_of (r : Res Token * World) : Token :=
  match fst r with
  | inr t => t
  | inl _ => mkToken "" "" "" 0
  end.

Definition string_of (r : Res string * World) : string :=
  match fst r with
  | inr s => s
  | inl _ => ""
  end.

Definition registered : World :=
  snd (AuthService.register_user Demo.env alice (Demo.empty_world 0)).

Definition first_login : Res Token * World :=
  AuthService.login_user Demo.env (mkUserLogin "alice@example.com" "oldpass123")
    (Demo.at_time (seconds 5) registered).

Definition old_tokens : Token := tokens_of first_login.

Definition reset_token : string :=
  string_of (create_password_reset_token Demo.env "alice@example.com"
               (Demo.at_time (seconds 9) (snd first_login))).

Definition after_reset : World :=
  snd (AuthService.reset_password Demo.env reset_token "newpass456"
         (Demo.at_time (seconds 10) (snd first_login))).

Definition second_login : Res Token * World :=
  AuthService.login_user Demo.env (mkUserLogin "alice@example.com" "newpass456")
    (Demo.at_time (seconds 12) after_reset).

Definition new_tokens : Token := tokens_of second_login.

(** Bob signs in with Google for the first time. *)
Definition google_first_login : Res Token * World :=
  AuthService.google_auth Demo.env "bob@example.com" (Demo.empty_world 0).

End Scenario.

(** ** The service as a transition system *)

Inductive Request :=
  | PostRegister (user_data : UserRegister)
  | PostLogin (login_data : UserLogin)
  | PostGoogle (id_token : string)
  | PostRefresh (token : string)
  | GetMe (token : string)
  | PostForgotPassword (e : string)
  | PostResetPassword (token new_password : string)
  | PostLogout (token : string).

(** What happens to the world: a request is served, or something outside
    the process moves (time passes, documents change, a service fails or
    recovers). The blacklist and the outbox are the process's own. *)
Inductive Event :=
  | Serve (r : Request)
  | Outside (docs : list (string * UserDoc)) (t : Z) (fs smtp : option string).

Definition handle (E : Env) (r : Request) : M unit :=
  match r with
  | PostRegister user_data => _ <- AuthService.register_user E user_data ;; ret tt
  | PostLogin login_data => _ <- AuthService.login_user E login_data ;; ret tt
  | PostGoogle id_token => _ <- AuthService.google_auth E id_token ;; ret tt
  | PostRefresh token => _ <- refresh_token_route E token ;; ret tt
  | GetMe token => _ <- session_guard E token ;; ret tt
  | PostForgotPassword e => _ <- forgot_password E e ;; ret tt
  | PostResetPassword token new_password =>
      _ <- reset_password E token new_password ;; ret tt
  | PostLogout token => _ <- logout token ;; ret tt
  end.

Definition step (E : Env) (w : World) (ev : Event) : World :=
  match ev with
  | Serve r => snd (handle E r w)
  | Outside docs t fs smtp => mkWorld (blacklist w) docs t fs smtp (outbox w)
  end.

Definition run (E : Env) (evs : list Event) (w : World) : World :=
  fold_left (step E) evs w.

(** ** Vocabulary of the specification *)

(** The two kinds of session token and the codec operation [issue]. *)
Inductive Kind := Access | Refresh.

Definition kind_str (k : Kind) : string :=
  match k with Access => "access" | Refresh => "refresh" end.

Definition issue (E : Env) (k : Kind) (data : Claims) (expires_delta : option Z)
  : M string :=
  match k with
  | Access => create_access_token E data expires_delta
  | Refresh => create_refresh_token E data expires_delta
  end.

(** How long a token of kind [k] lives when issued with [expires_delta]. *)
Definition lifetime (E : Env) (k : Kind) (expires_delta : option Z) : Z :=
  match timedelta_truthy expires_delta with
  | Some d => d
  | None =>
      match k with
      | Access => timedelta_minutes (ACCESS_TOKEN_EXPIRE_MINUTES E)
      | Refresh => timedelta_days (REFRESH_TOKEN_EXPIRE_DAYS E)
      end
  end.

(** The failures of the specification's taxonomy, as the code raises them. *)
Definition revoked_response : exn :=
  HTTPException 401 "Token has been revoked. Please login again." bearer_headers.

Definition session_invalidated_response : exn :=
  HTTPException 401
    "Your password was changed. Please login again with your new password."
    bearer_headers.

Definition expired_error : exn :=
  Error JWTError "Could not validate token: Signature has expired.".

Definition wrong_type_error (expected : string) (found : option string) : exn :=
  Error JWTError ("Could not validate token: Invalid token type. Expected " +:+
                  expected +:+ ", got " +:+ pystr found).

Definition provider_mismatch_on_reset : exn :=
  HTTPException 400 "This account uses Google Sign-In. Password cannot be reset." [].

Definition provider_mismatch_on_login : exn :=
  HTTPException 400 "This account uses Google Sign-In. Please login with Google." [].

Definition invalid_email_or_password : exn :=
  HTTPException 401 "Invalid email or password" [].

(** What reading [iat] on a session raises, and what the guard makes of it. *)
Definition no_iat_error : exn :=
  Error AttributeError "'TokenData' object has no attribute 'iat'".

Definition guard_failure : exn :=
  HTTPException 500
    "Error fetching user data: 'TokenData' object has no attribute 'iat'" [].

(** The one answer of [/forgot-password]. *)
Definition forgot_password_response : MessageResponse :=
  mkMessageResponse "If the email exists, a password reset link has been sent." true.

(** [frames_blacklist m]: running [m] leaves the blacklist as it found it. *)
Definition frames_blacklist {A} (m : M A) : Prop :=
  forall w, blacklist (snd (m w)) = blacklist w.

(** ** More of the service

    The routes and service functions that delete an account or send a
    verification mail, with the one collaborator they add (Firebase Auth's
    [delete_user]) and the framework's [str] of an [HTTPException] taken as
    arguments. *)

(** [str(e)]; [http_str status detail] is what the framework prints for an
    [HTTPException]. *)
Definition exn_str (http_str : Z -> string -> string) (e : exn) : string :=
  match e with
  | HTTPException status detail _ => http_str status detail
  | Error _ msg => msg
  end.

(** [except Exception as e: raise HTTPException(status, prefix + str(e))],
    with no clause before it that lets an [HTTPException] through. *)
Definition catch_all {A} (http_str : Z -> string -> string) (status : Z)
    (prefix : string) (e : exn) : M A :=
  raise (HTTPException status (prefix +:+ exn_str http_str e) []).

Module Accounts.

(** A deleted document is gone, under whatever position it was stored. *)
Fixpoint doc_remove (id : string) (c : list (string * UserDoc))
  : list (string * UserDoc) :=
  match c with
  | [] => []
  | (k, d) :: c' =>
      if String.eqb k id then doc_remove id c' else (k, d) :: doc_remove id c'
  end.

(** [users_ref.document(id).delete()]: deleting what is not there is fine. *)
Definition firestore_delete (id : string) : M unit :=
  Firestore.call
    (fun w => (inr tt, Firestore.with_users (doc_remove id (users w)) w)).

(** [firebase_client.delete_user(uid)] of [app/config/firebase.py]. *)
Definition firebase_delete_user (auth_delete_user : string -> string + unit)
    (id : string) : M bool :=
  match auth_delete_user id with
  | inr _ => ret true
  | inl msg => raise (Error ValueError ("Error deleting user: " +:+ msg))
  end.

(** [AuthService.delete_user_account] *)
Definition delete_user_account (http_str : Z -> string -> string)
    (auth_delete_user : string -> string + unit) (id : string) : M bool :=
  try_except
    (_ <- firebase_delete_user auth_delete_user id ;;
     firestore_delete id ;;;
     ret true)
    (catch_all http_str 500 "Account deletion failed: ").

(** The route [DELETE /delete-account], behind [Depends(get_current_user)]. *)
Definition delete_account (E : Env) (http_str : Z -> string -> string)
    (auth_delete_user : string -> string + unit) (token : string)
  : M MessageResponse :=
  current_user <- get_current_user E token ;;
  _ <- delete_user_account http_str auth_delete_user (uid current_user) ;;
  ret (mkMessageResponse "Account has been deleted successfully." true).

(** The route [POST /verify-email]. *)
Definition request_email_verification (E : Env)
    (http_str : Z -> string -> string) (e : string) : M MessageResponse :=
  try_except
    (verification_link <- firebase_client.generate_email_verification_link E e ;;
     _ <- send_verification_email e verification_link ;;
     ret (mkMessageResponse "Verification email has been sent." true))
    (catch_all http_str 500 "Failed to send verification email: ").

(** [needle in hay] on strings. *)
Fixpoint contains (needle hay : string) : bool :=
  if String.prefix needle hay then true
  else match hay with
       | EmptyString => false
       | String _ hay' => contains needle hay'
       end.

(** The route [DELETE /admin/delete-user-by-email/{email}]; it takes no
    credentials. *)
Definition admin_delete_user_by_email (E : Env) (http_str : Z -> string -> string)
    (auth_delete_user : string -> string + unit) (e : string) : M MessageResponse :=
  try_except
    (try_except
       (user <- firebase_client.get_user_by_email E e ;;
        _ <- firebase_delete_user auth_delete_user (au_uid user) ;;
        firestore_delete (au_uid user) ;;;
        ret (mkMessageResponse
               ("User " +:+ e +:+ " deleted from Firebase Auth and Firestore") true))
       (fun err =>
          if contains "USER_NOT_FOUND" (exn_str http_str err)
          then ret (mkMessageResponse
                      ("User " +:+ e +:+ " not found in Firebase Auth") false)
          else raise err))
    (catch_all http_str 500 "Error deleting user: ").

End Accounts.

(** ** A second instance: Firebase Auth and Google refusing

    The codec of [Demo]; creating a user, looking one up by email and
    generating a link fail; Google accepts any token but ["bad"], and knows no
    email for the token [""]. *)

Module Outage.

Definition env : Env :=
  mkEnv 30 7 "http://localhost:3000" "client-id"
        (hash_password Demo.env) (verify_password Demo.env)
        Demo.sign Demo.verify
        (fun _ _ _ => inl "EMAIL_EXISTS")
        (auth_get_user Demo.env)
        (fun _ => inl "USER_NOT_FOUND")
        (auth_update_user Demo.env)
        (fun _ => inl "QUOTA_EXCEEDED")
        (fun t _ => if String.eqb t "bad" then inl "Token expired"
                    else inr (mkIdInfo (if String.eqb t "" then None else Some t)
                                       (Some "G User") (Some "g-sub") None)).

(** Firebase Auth's [delete_user]: it knows Alice only. *)
Definition auth_delete_user (id : string) : string + unit :=
  if String.eqb id "uid-alice@example.com" then inr tt else inl "USER_NOT_FOUND".

(** What the framework prints for an [HTTPException]. *)
Definition http_str (status : Z) (detail : string) : string := detail.

Definition smtp_down (w : World) : World :=
  mkWorld (blacklist w) (users w) (clock w) (firestore_fault w)
          (Some "Connection refused") (outbox w).

Definition firestore_down (w : World) : World :=
  mkWorld (blacklist w) (users w) (clock w) (Some "503 unavailable")
          (smtp_fault w) (outbox w).

End Outage.

(** The pair of tokens a login (or a refresh) at time [now] hands out for
    the uid [id] and the email [e]. *)
Definition tokens_at (E : Env) (id : string) (e : option string) (now : Z) : Token :=
  mkToken
    (jws_sign E (mkClaims (Some id) e
                   (Some (timegm (now + lifetime E Access None)))
                   (Some (timegm now)) (Some "access")))
    (jws_sign E (mkClaims (Some id) e
                   (Some (timegm (now + lifetime E Refresh None)))
                   (Some (timegm now)) (Some "refresh")))
    "bearer" (ACCESS_TOKEN_EXPIRE_MINUTES E * 60).

(** The collection is keyed by document id: no id occurs twice. *)
Definition well_keyed (w : World) : Prop := List.NoDup (List.map fst (users w)).

(** * Properties *)

(** ** Running a handler *)

Lemma bind_inr {A B} (m : M A) (k : A -> M B) w a w' :
  m w = (inr a, w') -> bind m k w = k a w'.
Proof. intros H. unfold bind. now rewrite H. Qed.

Lemma bind_inl {A B} (m : M A) (k : A -> M B) w e w' :
  m w = (inl e, w') -> bind m k w = (inl e, w').
Proof. intros H. unfold bind. now rewrite H. Qed.

Lemma bind_bind_inr {A B C} (m : M A) (k0 : A -> M B) (k : B -> M C) w a w' :
  m w = (inr a, w') -> bind (bind m k0) k w = bind (k0 a) k w'.
Proof. intros H. unfold bind. now rewrite H. Qed.

Lemma try_except_inr {A} (m : M A) h w a w' :
  m w = (inr a, w') -> try_except m h w = (inr a, w').
Proof. intros H. unfold try_except. now rewrite H. Qed.

Lemma try_except_inl {A} (m : M A) h w e w' :
  m w = (inl e, w') -> try_except m h w = h e w'.
Proof. intros H. unfold try_except. now rewrite H. Qed.

(** ** The blacklist is the process's own: a frame rule *)

Create HintDb frames.

Lemma frames_ret {A} (a : A) : frames_blacklist (ret a).
Proof. intros w. reflexivity. Qed.

Lemma frames_raise {A} e : frames_blacklist (@raise A e).
Proof. intros w. reflexivity. Qed.

Lemma frames_utcnow : frames_blacklist utcnow.
Proof. intros w. reflexivity. Qed.

Lemma frames_bind {A B} (m : M A) (k : A -> M B) :
  frames_blacklist m -> (forall a, frames_blacklist (k a)) ->
  frames_blacklist (bind m k).
Proof.
  intros Hm Hk w. unfold bind.
  specialize (Hm w). destruct (m w) as [[e | a] w1]; simpl in *.
  - exact Hm.
  - rewrite (Hk a w1). exact Hm.
Qed.

Lemma frames_try_except {A} (m : M A) (h : exn -> M A) :
  frames_blacklist m -> (forall e, frames_blacklist (h e)) ->
  frames_blacklist (try_except m h).
Proof.
  intros Hm Hh w. unfold try_except.
  specialize (Hm w). destruct (m w) as [[e | a] w1]; simpl in *.
  - rewrite (Hh e w1). exact Hm.
  - exact Hm.
Qed.

Lemma frames_call {A} (f : M A) :
  frames_blacklist f -> frames_blacklist (Firestore.call f).
Proof.
  intros Hf w. unfold Firestore.call.
  destruct (firestore_fault w); [reflexivity | apply Hf].
Qed.

#[global] Hint Resolve frames_ret frames_raise frames_utcnow : frames.

(** One step through the shape of a handler. *)
Ltac frame_step :=
  lazymatch goal with
  | |- frames_blacklist (bind _ _) => apply frames_bind; [| intros ?]
  | |- frames_blacklist (try_except _ _) => apply frames_try_except; [| intros ?]
  | |- frames_blacklist (Firestore.call _) => apply frames_call
  | |- frames_blacklist (match ?x with _ => _ end) => destruct x
  | |- frames_blacklist (let _ := _ in _) => cbv zeta
  | |- frames_blacklist (fun _ => _) => intros ?; simpl; try reflexivity
  | |- _ => solve [auto with frames]
  end.

Ltac frame := repeat frame_step.

Lemma frames_where_email e : frames_blacklist (Firestore.where_email_limit_1 e).
Proof. unfold Firestore.where_email_limit_1. frame. Qed.

Lemma frames_get id : frames_blacklist (Firestore.get id).
Proof. unfold Firestore.get. frame. Qed.

Lemma frames_set id d : frames_blacklist (Firestore.set id d).
Proof. unfold Firestore.set. frame. Qed.

Lemma frames_update id f : frames_blacklist (Firestore.update id f).
Proof.
  unfold Firestore.update. apply frames_call. intros w.
  destruct (Firestore.doc_lookup id (users w)); reflexivity.
Qed.

Lemma frames_wrap {A} p (r : string + A) : frames_blacklist (firebase_client.wrap p r).
Proof. unfold firebase_client.wrap. frame. Qed.

Lemma frames_get_user_by_email E e :
  frames_blacklist (firebase_client.get_user_by_email E e).
Proof. unfold firebase_client.get_user_by_email. frame. Qed.

Lemma frames_send_email m : frames_blacklist (send_email m).
Proof. intros w. unfold send_email. destruct (smtp_fault w); reflexivity. Qed.

#[global] Hint Resolve frames_where_email frames_get frames_set frames_update
  frames_wrap frames_get_user_by_email frames_send_email : frames.

Lemma frames_jwt_decode E token : frames_blacklist (jwt_decode E token).
Proof. unfold jwt_decode. frame. Qed.

Lemma frames_rewrap {A} p e : frames_blacklist (@rewrap_JWTError A p e).
Proof. unfold rewrap_JWTError. frame. Qed.

Lemma frames_reraise_http {A} s p h e : frames_blacklist (@reraise_http A s p h e).
Proof. unfold reraise_http. frame. Qed.

Lemma frames_reraise_http_jwt {A} p q e : frames_blacklist (@reraise_http_jwt A p q e).
Proof. unfold reraise_http_jwt. frame. Qed.

#[global] Hint Resolve frames_jwt_decode frames_rewrap frames_reraise_http
  frames_reraise_http_jwt : frames.

Lemma frames_create_access_token E data delta :
  frames_blacklist (create_access_token E data delta).
Proof. unfold create_access_token. frame. Qed.

Lemma frames_create_refresh_token E data delta :
  frames_blacklist (create_refresh_token E data delta).
Proof. unfold create_refresh_token. frame. Qed.

Lemma frames_create_password_reset_token E e :
  frames_blacklist (create_password_reset_token E e).
Proof. unfold create_password_reset_token. frame. Qed.

Lemma frames_verify_token E token expected :
  frames_blacklist (verify_token E token expected).
Proof. unfold verify_token. frame. Qed.

Lemma frames_verify_password_reset_token E token :
  frames_blacklist (verify_password_reset_token E token).
Proof. unfold verify_password_reset_token. frame. Qed.

#[global] Hint Resolve frames_create_access_token frames_create_refresh_token
  frames_create_password_reset_token frames_verify_token
  frames_verify_password_reset_token : frames.

Lemma frames_is_blacklisted token :
  frames_blacklist (TokenBlacklist.is_blacklisted token).
Proof. intros w. reflexivity. Qed.

Lemma frames_getattr t name : frames_blacklist (TokenData_getattr t name).
Proof. unfold TokenData_getattr. frame. Qed.

Lemma frames_utcfromtimestamp v : frames_blacklist (utcfromtimestamp v).
Proof. unfold utcfromtimestamp. frame. Qed.

#[global] Hint Resolve frames_is_blacklisted frames_getattr
  frames_utcfromtimestamp : frames.

Lemma frames_get_current_user E token : frames_blacklist (get_current_user E token).
Proof. unfold get_current_user. frame. Qed.

Lemma frames_sync_email_verified E id d :
  frames_blacklist (sync_email_verified E id d).
Proof.
  unfold sync_email_verified, firebase_client.get_user. frame.
Qed.

#[global] Hint Resolve frames_get_current_user frames_sync_email_verified : frames.

Lemma frames_get_current_active_user E t :
  frames_blacklist (get_current_active_user E t).
Proof. unfold get_current_active_user. frame. Qed.

Lemma frames_verify_refresh_token E token :
  frames_blacklist (verify_refresh_token E token).
Proof. unfold verify_refresh_token. frame. Qed.

Lemma frames_issue_tokens E id e : frames_blacklist (AuthService.issue_tokens E id e).
Proof. unfold AuthService.issue_tokens. frame. Qed.

#[global] Hint Resolve frames_get_current_active_user frames_verify_refresh_token
  frames_issue_tokens : frames.

Lemma frames_register_user E u : frames_blacklist (AuthService.register_user E u).
Proof.
  unfold AuthService.register_user, firebase_client.create_user,
    firebase_client.generate_email_verification_link, send_verification_email.
  frame.
Qed.

Lemma frames_login_user E l : frames_blacklist (AuthService.login_user E l).
Proof. unfold AuthService.login_user. frame. Qed.

Lemma frames_google_auth E t : frames_blacklist (AuthService.google_auth E t).
Proof.
  unfold AuthService.google_auth, firebase_client.create_user. frame.
Qed.

Lemma frames_request_password_reset E e :
  frames_blacklist (AuthService.request_password_reset E e).
Proof.
  unfold AuthService.request_password_reset, send_password_reset_email. frame.
Qed.

Lemma frames_reset_password E t p :
  frames_blacklist (AuthService.reset_password E t p).
Proof.
  unfold AuthService.reset_password, firebase_client.update_user. frame.
Qed.

#[global] Hint Resolve frames_register_user frames_login_user frames_google_auth
  frames_request_password_reset frames_reset_password : frames.

(** Every route but [/logout] leaves the blacklist alone, and [/logout]
    adds the one token it was given. *)
Lemma handle_blacklist E r w :
  blacklist (snd (handle E r w)) =
  match r with
  | PostLogout token => {[token]} ∪ blacklist w
  | _ => blacklist w
  end.
Proof.
  destruct r; try reflexivity;
    match goal with |- blacklist (snd (?m w)) = _ =>
      change (blacklist (snd (m w)) = blacklist w);
      revert w; change (frames_blacklist m) end;
    unfold handle, refresh_token_route, session_guard, forgot_password,
      reset_password, AuthService.refresh_access_token; frame.
Qed.

Lemma step_blacklist_grows E w ev token :
  token ∈ blacklist w -> token ∈ blacklist (step E w ev).
Proof.
  intros H. destruct ev as [r | docs t fs smtp]; simpl; [| exact H].
  rewrite handle_blacklist.
  destruct r; try exact H. apply elem_of_union_r, H.
Qed.

Lemma run_blacklist_grows E evs w token :
  token ∈ blacklist w -> token ∈ blacklist (run E evs w).
Proof.
  revert w. induction evs as [| ev evs IH]; intros w H; simpl; [exact H |].
  apply IH. now apply step_blacklist_grows.
Qed.

(** ** Revocation *)

Lemma get_current_user_blacklisted E token w :
  token ∈ blacklist w ->
  get_current_user E token w = (inl revoked_response, w).
Proof.
  intros H. unfold get_current_user, try_except, bind,
    TokenBlacklist.is_blacklisted.
  rewrite bool_decide_eq_true_2 by exact H. reflexivity.
Qed.

Lemma logout_world token w :
  snd (logout token w) =
  mkWorld ({[token]} ∪ blacklist w) (users w) (clock w)
          (firestore_fault w) (smtp_fault w) (outbox w).
Proof. reflexivity. Qed.

(** C4. Once a token string has been revoked (logout adds it to the
    revocation store), every later check of that exact string by the session
    guard is rejected as revoked, whatever requests are served and whatever
    happens outside the process in between; and revoking it a second time
    leaves the world as the first revocation left it. *)
Theorem revoked_token_stays_rejected (E : Env) (token : string) (w : World)
    (evs : list Event) :
  let w1 := snd (logout token w) in
  let w2 := run E evs w1 in
  get_current_user E token w2 = (inl revoked_response, w2)
  /\ session_guard E token w2 = (inl revoked_response, w2)
  /\ snd (logout token w1) = w1
  /\ snd (TokenBlacklist.add_token token w1) = w1.
Proof.
  intros w1 w2.
  assert (Hin : token ∈ blacklist w2).
  { apply run_blacklist_grows. subst w1. rewrite logout_world. simpl.
    apply elem_of_union_l, elem_of_singleton. reflexivity. }
  assert (Hidem : snd (logout token w1) = w1).
  { subst w1. rewrite !logout_world. simpl. f_equal.
    now rewrite (assoc_L (∪)), union_idemp_L. }
  repeat split.
  - now apply get_current_user_blacklisted.
  - unfold session_guard. eapply bind_inl. now apply get_current_user_blacklisted.
  - exact Hidem.
  - exact Hidem.
Qed.

(** ** The token codec *)

Lemma timegm_mono a b : a <= b -> timegm a <= timegm b.
Proof. intros H. unfold timegm, MICROS. apply Z.div_le_mono; lia. Qed.

Lemma jwt_decode_expired E token payload e w :
  jws_verify E token = inr payload ->
  c_exp payload = Some e -> e < timegm (clock w) ->
  jwt_decode E token w = (inl (Error JWTError "Signature has expired."), w).
Proof.
  intros Hv He Hlt. unfold jwt_decode. rewrite Hv. unfold bind, utcnow.
  rewrite He. destruct (Z.ltb_spec e (timegm (clock w))); [reflexivity | lia].
Qed.

Lemma jwt_decode_live E token payload w :
  jws_verify E token = inr payload ->
  (forall e, c_exp payload = Some e -> timegm (clock w) <= e) ->
  jwt_decode E token w = (inr payload, w).
Proof.
  intros Hv Hlive. unfold jwt_decode. rewrite Hv. unfold bind, utcnow.
  destruct (c_exp payload) as [e |] eqn:He; [| reflexivity].
  specialize (Hlive e eq_refl).
  destruct (Z.ltb_spec e (timegm (clock w))); [lia | reflexivity].
Qed.

Lemma issue_result E k data delta w :
  issue E k data delta w =
  (inr (jws_sign E (mkClaims (c_sub data) (c_email data)
                             (Some (timegm (clock w + lifetime E k delta)))
                             (Some (timegm (clock w)))
                             (Some (kind_str k)))), w).
Proof.
  destruct k; unfold issue, create_access_token, create_refresh_token, lifetime,
    bind, utcnow, ret; simpl;
    destruct (timedelta_truthy delta); reflexivity.
Qed.

Lemma verify_token_live E token expected payload sub w :
  jws_verify E token = inr payload ->
  (forall e, c_exp payload = Some e -> timegm (clock w) <= e) ->
  c_sub payload = Some sub ->
  verify_token E token expected w =
  if bool_decide (c_token_type payload = Some expected)
  then (inr (mkTokenData sub (c_email payload) expected), w)
  else (inl (wrong_type_error expected (c_token_type payload)), w).
Proof.
  intros Hv Hlive Hsub. unfold verify_token, try_except.
  rewrite (bind_inr _ _ _ _ _ (jwt_decode_live _ _ _ _ Hv Hlive)), Hsub.
  destruct (bool_decide (c_token_type payload = Some expected)); reflexivity.
Qed.

(** C2. For either kind of session token and every subject (a uid with its
    email), a token freshly issued for it verifies, when the same kind is
    expected, at every time up to the end of its lifetime, and the session it
    yields carries the subject it was issued for. *)
Theorem verify_issue_roundtrip (E : Env) (k : Kind) (id : string)
    (e : option string) (expires_delta : option Z) (w w' : World) :
  jose_contract E ->
  clock w' <= clock w + lifetime E k expires_delta ->
  exists token,
    issue E k (mkClaims (Some id) e None None None) expires_delta w = (inr token, w)
    /\ verify_token E token (kind_str k) w'
       = (inr (mkTokenData id e (kind_str k)), w').
Proof.
  intros Hjose Hwin. eexists. split; [apply issue_result |].
  rewrite (verify_token_live E _ (kind_str k) _ id w' (Hjose _)); simpl.
  - now rewrite bool_decide_eq_true_2.
  - intros x [= <-]. now apply timegm_mono.
  - reflexivity.
Qed.


(** The reference codec honours the contract. *)
Lemma pos_of_bits_of_pos p : Demo.pos_of_bits (Demo.bits_of_pos p) = Some p.
Proof. induction p as [p IH | p IH |]; simpl; now rewrite ?IH. Qed.

Lemma demo_jose_contract : jose_contract Demo.env.
Proof.
  intros c. simpl. unfold Demo.verify, Demo.sign.
  rewrite pos_of_bits_of_pos. simpl. now rewrite decode_encode.
Qed.

Lemma verify_issue_roundtrip_witness :
  exists token,
    issue Demo.env Access (mkClaims (Some "u1") (Some "a@b.c") None None None) None
          (Demo.empty_world 0) = (inr token, Demo.empty_world 0)
    /\ verify_token Demo.env token "access" (Demo.empty_world 1740000000)
       = (inr (mkTokenData "u1" (Some "a@b.c") "access"), Demo.empty_world 1740000000).
Proof.
  apply (verify_issue_roundtrip Demo.env Access "u1" (Some "a@b.c") None
           (Demo.empty_world 0) (Demo.empty_world 1740000000)).
  - apply demo_jose_contract.
  - vm_compute. discriminate.
Defined.



Lemma verify_token_success E token expected w td w1 :
  verify_token E token expected w = (inr td, w1) ->
  w1 = w /\
  exists payload sub,
    jws_verify E token = inr payload
    /\ c_sub payload = Some sub
    /\ c_token_type payload = Some expected
    /\ (forall e, c_exp payload = Some e -> timegm (clock w) <= e)
    /\ td = mkTokenData sub (c_email payload) expected.
Proof.
  unfold verify_token, try_except, bind at 1, jwt_decode.
  destruct (jws_verify E token) as [msg | payload] eqn:Hv; [discriminate |].
  unfold bind, utcnow.
  destruct (c_exp payload) as [e |] eqn:He;
    [destruct (Z.ltb_spec e (timegm (clock w))) as [Hlt | Hge]; [discriminate |] |];
    unfold ret, raise; cbv beta iota;
    (destruct (c_sub payload) as [sub |] eqn:Hs; [| discriminate]);
    (destruct (bool_decide (c_token_type payload = Some expected)) eqn:Hb;
       simpl; [| discriminate]);
    apply bool_decide_eq_true_1 in Hb; intros [= <- <-];
    (split; [reflexivity |]); exists payload, sub;
    (split; [reflexivity |]); (split; [exact Hs |]); (split; [exact Hb |]);
    (split; [| reflexivity]).
  - intros e' He'. rewrite He in He'. injection He' as <-. exact Hge.
  - intros e' He'. rewrite He in He'. discriminate.
Qed.

(** ** The session carries no issue time *)

(** C6 on the code. The session a successful verification yields is made of
    the payload's subject and email and the expected kind; its attributes
    [uid], [email] and [token_type] can be read, and reading [iat], the
    issue time, raises [AttributeError]: the session does not carry it. *)
Theorem session_has_no_issued_at (E : Env) (token expected : string)
    (w w1 : World) (td : TokenData) :
  verify_token E token expected w = (inr td, w1) ->
  (exists payload sub,
     jws_verify E token = inr payload /\ c_sub payload = Some sub
     /\ td = mkTokenData sub (c_email payload) expected)
  /\ TokenData_getattr td "uid" w1 = (inr (PyStr (uid td)), w1)
  /\ TokenData_getattr td "token_type" w1 = (inr (PyStr expected), w1)
  /\ (exists v, TokenData_getattr td "email" w1 = (inr v, w1))
  /\ TokenData_getattr td "iat" w1 = (inl no_iat_error, w1).
Proof.
  intros H. apply verify_token_success in H.
  destruct H as [-> (payload & sub & Hv & Hs & Hty & _ & ->)].
  split; [exists payload, sub; auto |].
  split; [reflexivity |]. split; [reflexivity |].
  split; [eexists; reflexivity | reflexivity].
Qed.

Lemma session_has_no_issued_at_witness :
  let w := Demo.at_time (Scenario.seconds 6) (snd Scenario.first_login) in
  let td := mkTokenData "uid-alice@example.com" (Some "alice@example.com") "access" in
  verify_token Demo.env (access_token Scenario.old_tokens) "access" w = (inr td, w)
  /\ TokenData_getattr td "iat" w = (inl no_iat_error, w).
Proof.
  intros w td.
  assert (H : verify_token Demo.env (access_token Scenario.old_tokens) "access" w
              = (inr td, w)) by (vm_compute; reflexivity).
  split; [exact H |].
  apply (session_has_no_issued_at Demo.env (access_token Scenario.old_tokens)
           "access" w w td H).
Defined.

(** ** The password-change check *)

(** With the store reachable and the user's document in it, the guard stops
    at its first read of [current_user.iat], before any timestamp is looked
    at. *)
Lemma get_current_active_user_stops_at_iat E td w d :
  firestore_fault w = None ->
  Firestore.doc_lookup (uid td) (users w) = Some d ->
  get_current_active_user E td w = (inl guard_failure, w).
Proof.
  intros Hf Hd.
  unfold get_current_active_user, try_except, bind at 1, Firestore.get,
    Firestore.call.
  rewrite Hf, Hd. reflexivity.
Qed.

(** C1 on the code, at Alice's scenario. The token of her login at second 5
    carries [iat = 5]; her record's [password_changed_at] is second 10 after
    the reset. Presented at second 11 the old token is not blacklisted and
    verifies, and the guard answers 500, not the 401 of an invalidated
    session. The token of her login at second 12, issued after the change,
    gets the same 500 at second 13 instead of being accepted. *)
Theorem password_change_check_is_never_reached :
  let old := access_token Scenario.old_tokens in
  let new := access_token Scenario.new_tokens in
  let w11 := Demo.at_time (Scenario.seconds 11) Scenario.after_reset in
  let w13 := Demo.at_time (Scenario.seconds 13) (snd Scenario.second_login) in
  (exists payload, jws_verify Demo.env old = inr payload /\ c_iat payload = Some 5)
  /\ (d_password_changed_at <$>
        Firestore.doc_lookup "uid-alice@example.com" (users w11))
     = Some (Some (Scenario.seconds 10))
  /\ (exists td, get_current_user Demo.env old w11 = (inr td, w11))
  /\ session_guard Demo.env old w11 = (inl guard_failure, w11)
  /\ session_guard Demo.env old w11 <> (inl session_invalidated_response, w11)
  /\ (exists payload, jws_verify Demo.env new = inr payload /\ c_iat payload = Some 12)
  /\ session_guard Demo.env new w13 = (inl guard_failure, w13).
Proof.
  intros old new w11 w13.
  assert (H11 : session_guard Demo.env old w11 = (inl guard_failure, w11))
    by (vm_compute; reflexivity).
  split; [eexists; split; [vm_compute; reflexivity | reflexivity] |].
  split; [vm_compute; reflexivity |].
  split; [eexists; vm_compute; reflexivity |].
  split; [exact H11 |].
  split; [rewrite H11; discriminate |].
  split; [eexists; split; [vm_compute; reflexivity | reflexivity] |].
  vm_compute; reflexivity.
Qed.

(** ** Logout and the refresh token *)

Lemma login_user_success E ld w tok w1 :
  AuthService.login_user E ld w = (inr tok, w1) ->
  exists id,
    tok = mkToken
            (jws_sign E (mkClaims (Some id) (Some (l_email ld))
                           (Some (timegm (clock w + lifetime E Access None)))
                           (Some (timegm (clock w))) (Some "access")))
            (jws_sign E (mkClaims (Some id) (Some (l_email ld))
                           (Some (timegm (clock w + lifetime E Refresh None)))
                           (Some (timegm (clock w))) (Some "refresh")))
            "bearer" (ACCESS_TOKEN_EXPIRE_MINUTES E * 60)
    /\ clock w1 = clock w /\ blacklist w1 = blacklist w.
Proof.
  unfold AuthService.login_user, try_except, bind at 1,
    Firestore.where_email_limit_1, Firestore.call.
  destruct (firestore_fault w) as [msg |] eqn:Hf; [discriminate |].
  destruct (take 1 (List.filter (Firestore.has_email (l_email ld)) (users w)))
    as [| [id d] rest]; [discriminate |].
  destruct (AuthService.nonempty (d_hashed_password d)) as [stored |].
  2: { destruct (bool_decide _); discriminate. }
  destruct (negb _); [discriminate |].
  unfold bind, utcnow, Firestore.update, Firestore.call. simpl.
  rewrite Hf.
  destruct (Firestore.doc_lookup id (users w)); [| discriminate].
  unfold AuthService.issue_tokens.
  change (create_access_token E ?d None) with (issue E Access d None).
  change (create_refresh_token E ?d None) with (issue E Refresh d None).
  unfold bind. rewrite !issue_result. simpl.
  intros [= <- <-]. exists id. repeat split.
Qed.

(** Verifying a refresh token reads the clock and nothing else of the
    world, and leaves the world as it is. *)
Lemma verify_refresh_token_reads_only_the_clock E token wa wb :
  clock wa = clock wb ->
  fst (verify_refresh_token E token wa) = fst (verify_refresh_token E token wb)
  /\ snd (verify_refresh_token E token wa) = wa.
Proof.
  intros Hc.
  unfold verify_refresh_token, verify_token, try_except, jwt_decode.
  destruct (jws_verify E token) as [msg | payload];
    unfold bind, utcnow, ret, raise; cbv beta iota; [split; reflexivity |].
  rewrite Hc.
  destruct (c_exp payload) as [e |];
    [destruct (e <? timegm (clock wb)); [split; reflexivity |] |];
    (destruct (c_sub payload) as [sub |]; [| split; reflexivity]);
    destruct (negb (bool_decide (c_token_type payload = Some "refresh")));
    split; reflexivity.
Qed.

(** C5. After a login, logging out with the access token adds that one
    string to the revocation store and nothing else. From then on, whatever
    requests are served and whatever happens outside (password resets and a
    logout presenting the refresh token included), the access token is
    rejected as revoked, while the paired refresh token, until it expires,
    still verifies as a refresh token and yields the subject of the login:
    verifying a refresh token reads the clock only, neither the revocation
    store nor the credential record. *)
Theorem logout_leaves_refresh_token_valid (E : Env) (login_data : UserLogin)
    (w w1 : World) (tok : Token) (evs : list Event) :
  jose_contract E ->
  AuthService.login_user E login_data w = (inr tok, w1) ->
  let w2 := snd (logout (access_token tok) w1) in
  let w3 := run E evs w2 in
  clock w3 <= clock w + lifetime E Refresh None ->
  blacklist w2 = {[access_token tok]} ∪ blacklist w1
  /\ get_current_user E (access_token tok) w3 = (inl revoked_response, w3)
  /\ (exists id,
        verify_refresh_token E (refresh_token tok) w3
        = (inr (mkTokenData id (Some (l_email login_data)) "refresh"), w3))
  /\ (forall token wa wb, clock wa = clock wb ->
        fst (verify_refresh_token E token wa) = fst (verify_refresh_token E token wb)
        /\ snd (verify_refresh_token E token wa) = wa).
Proof.
  intros Hjose Hlogin w2 w3 Hwin.
  destruct (login_user_success _ _ _ _ _ Hlogin) as (id & -> & Hclock & Hbl).
  cbn [refresh_token access_token] in *.
  split; [reflexivity |].
  split.
  { apply get_current_user_blacklisted, run_blacklist_grows.
    subst w2. rewrite logout_world. simpl.
    apply elem_of_union_l, elem_of_singleton. reflexivity. }
  split; [| intros token wa wb; apply verify_refresh_token_reads_only_the_clock].
  exists id. unfold verify_refresh_token.
  apply try_except_inr.
  rewrite (verify_token_live E _ "refresh" _ id w3 (Hjose _)); simpl.
  - reflexivity.
  - intros x [= <-]. now apply timegm_mono.
  - reflexivity.
Qed.

Lemma logout_leaves_refresh_token_valid_witness :
  let tok := Scenario.old_tokens in
  let evs := [Serve (PostResetPassword Scenario.reset_token "newpass456");
              Serve (PostLogout (refresh_token tok));
              Outside (users Scenario.after_reset) (Scenario.seconds 3600) None None] in
  let w3 := run Demo.env evs (snd (logout (access_token tok) (snd Scenario.first_login))) in
  get_current_user Demo.env (access_token tok) w3 = (inl revoked_response, w3)
  /\ exists id,
       verify_refresh_token Demo.env (refresh_token tok) w3
       = (inr (mkTokenData id (Some "alice@example.com") "refresh"), w3).
Proof.
  intros tok evs w3.
  pose proof (logout_leaves_refresh_token_valid Demo.env
                (mkUserLogin "alice@example.com" "oldpass123")
                (Demo.at_time (Scenario.seconds 5) Scenario.registered)
                (snd Scenario.first_login) tok evs demo_jose_contract) as H.
  destruct H as (_ & Hrev & Href & _).
  - vm_compute. reflexivity.
  - vm_compute. discriminate.
  - split; [exact Hrev | exact Href].
Defined.

(** ** The collection *)

Lemma doc_lookup_store_same id d c :
  Firestore.doc_lookup id (Firestore.doc_store id d c) = Some d.
Proof.
  induction c as [| [k d0] c IH]; simpl.
  - now rewrite String.eqb_refl.
  - destruct (String.eqb k id) eqn:Hk; simpl; rewrite Hk; [reflexivity | exact IH].
Qed.

Lemma doc_lookup_In id d c :
  In (id, d) c -> exists d0, Firestore.doc_lookup id c = Some d0.
Proof.
  induction c as [| [k d0] c IH]; simpl; [tauto |].
  intros [[= -> ->] | H].
  - rewrite String.eqb_refl. eauto.
  - destruct (String.eqb k id); eauto.
Qed.

Lemma where_email_resolves e w id d rest :
  Firestore.where_email_limit_1 e w = (inr ((id, d) :: rest), w) ->
  firestore_fault w = None
  /\ exists d0, Firestore.doc_lookup id (users w) = Some d0.
Proof.
  unfold Firestore.where_email_limit_1, Firestore.call.
  destruct (firestore_fault w); [discriminate |].
  intros [= H]. split; [reflexivity |].
  apply (doc_lookup_In id d).
  destruct (List.filter (Firestore.has_email e) (users w)) as [| p l] eqn:Hl;
    [discriminate |].
  simpl in H. injection H as -> _.
  assert (Hin : In (id, d) (List.filter (Firestore.has_email e) (users w)))
    by (rewrite Hl; left; reflexivity).
  apply filter_In in Hin. tauto.
Qed.

(** ** Password reset *)

(** What a successful reset leaves behind. *)
Lemma reset_password_runs E token new_password w e id user_data rest au :
  verify_password_reset_token E token w = (inr e, w) ->
  Firestore.where_email_limit_1 e w = (inr ((id, user_data) :: rest), w) ->
  d_auth_provider user_data <> Some "google" ->
  auth_update_user E id new_password = inr au ->
  exists d0,
    Firestore.doc_lookup id (users w) = Some d0
    /\ AuthService.reset_password E token new_password w
       = (inr true,
          Firestore.with_users
            (Firestore.doc_store id
               (set_updated_at (clock w)
                  (set_password_changed_at (clock w)
                     (set_hashed_password (hash_password E new_password) d0)))
               (users w)) w).
Proof.
  intros Htok Hq Hprov Hupd.
  destruct (where_email_resolves _ _ _ _ _ Hq) as (Hf & d0 & Hd0).
  exists d0. split; [exact Hd0 |].
  unfold AuthService.reset_password. apply try_except_inr.
  rewrite (bind_inr _ _ _ _ _ Htok), (bind_inr _ _ _ _ _ Hq).
  rewrite bool_decide_eq_false_2 by exact Hprov.
  unfold firebase_client.update_user. rewrite Hupd.
  unfold firebase_client.wrap, bind, ret, utcnow, Firestore.update, Firestore.call.
  cbv beta iota. rewrite Hf, Hd0. reflexivity.
Qed.

(** C7. Consuming a reset token that verifies and resolves to a credential
    record: if the record's provider is the federated one, the request is
    rejected as a provider mismatch and nothing is written; otherwise, once
    Firebase Auth has taken the new password, the call returns [True] and the
    record then holds the hash of the new password as [hashed_password] and
    the current time as [password_changed_at]. *)
Theorem reset_password_consumes_token (E : Env) (token new_password : string)
    (w : World) (e id : string) (user_data : UserDoc)
    (rest : list (string * UserDoc)) :
  verify_password_reset_token E token w = (inr e, w) ->
  Firestore.where_email_limit_1 e w = (inr ((id, user_data) :: rest), w) ->
  (d_auth_provider user_data = Some "google" ->
   AuthService.reset_password E token new_password w
   = (inl provider_mismatch_on_reset, w))
  /\ (d_auth_provider user_data <> Some "google" ->
      (exists au, auth_update_user E id new_password = inr au) ->
      exists w' d',
        AuthService.reset_password E token new_password w = (inr true, w')
        /\ Firestore.doc_lookup id (users w') = Some d'
        /\ d_hashed_password d' = Some (hash_password E new_password)
        /\ d_password_changed_at d' = Some (clock w)).
Proof.
  intros Htok Hq. split.
  - intros Hprov. unfold AuthService.reset_password.
    erewrite try_except_inl.
    2: { rewrite (bind_inr _ _ _ _ _ Htok), (bind_inr _ _ _ _ _ Hq).
         rewrite bool_decide_eq_true_2 by exact Hprov. reflexivity. }
    reflexivity.
  - intros Hprov [au Hupd].
    destruct (reset_password_runs E token new_password w e id user_data rest au
                Htok Hq Hprov Hupd) as (d0 & Hd0 & Hrun).
    eexists. eexists. split; [exact Hrun |]. simpl.
    split; [apply doc_lookup_store_same |]. split; reflexivity.
Qed.

Lemma reset_password_consumes_token_witness :
  let w := Demo.at_time (Scenario.seconds 10) (snd Scenario.first_login) in
  let g := Demo.at_time (Scenario.seconds 10) (snd Scenario.google_first_login) in
  let bob_token :=
    Scenario.string_of (create_password_reset_token Demo.env "bob@example.com" g) in
  (exists w' d',
     AuthService.reset_password Demo.env Scenario.reset_token "newpass456" w
     = (inr true, w')
     /\ Firestore.doc_lookup "uid-alice@example.com" (users w') = Some d'
     /\ d_hashed_password d' = Some "hash:newpass456"
     /\ d_password_changed_at d' = Some (Scenario.seconds 10))
  /\ AuthService.reset_password Demo.env bob_token "newpass456" g
     = (inl provider_mismatch_on_reset, g).
Proof.
  intros w g bob_token. split.
  - edestruct (reset_password_consumes_token Demo.env Scenario.reset_token
                 "newpass456" w "alice@example.com" "uid-alice@example.com")
      as [_ H].
    + vm_compute. reflexivity.
    + vm_compute. reflexivity.
    + apply H; [vm_compute; discriminate | eexists; reflexivity].
  - edestruct (reset_password_consumes_token Demo.env bob_token
                 "newpass456" g "bob@example.com" "uid-bob@example.com")
      as [H _].
    + vm_compute. reflexivity.
    + vm_compute. reflexivity.
    + apply H. reflexivity.
Defined.

(** ** Requesting a reset *)

Lemma request_password_reset_returns_true E e w :
  fst (AuthService.request_password_reset E e w) = inr true.
Proof.
  unfold AuthService.request_password_reset, try_except, bind at 1,
    Firestore.where_email_limit_1, Firestore.call.
  destruct (firestore_fault w); [reflexivity |].
  destruct (Z.of_nat _ =? 0); [reflexivity |].
  unfold create_password_reset_token, send_password_reset_email, send_email,
    bind, utcnow, ret.
  cbv beta iota. destruct (smtp_fault w); reflexivity.
Qed.

(** C8. Requesting a password reset returns [True] for every email and in
    every state of the world: whether the email is known or not, whether the
    store answers or fails, whether the mail is accepted or refused. The
    route's answer is one fixed message, so two runs (one with a known
    email, one with an unknown one) cannot be told apart by their result,
    and no exception leaves the operation. *)
Theorem request_password_reset_reveals_nothing (E : Env) (e : string) (w : World) :
  fst (AuthService.request_password_reset E e w) = inr true
  /\ fst (forgot_password E e w) = inr forgot_password_response
  /\ (forall e' w',
        fst (AuthService.request_password_reset E e' w')
        = fst (AuthService.request_password_reset E e w)
        /\ fst (forgot_password E e' w') = fst (forgot_password E e w)).
Proof.
  assert (Hroute : forall e0 w0,
             fst (forgot_password E e0 w0) = inr forgot_password_response).
  { intros e0 w0. unfold forgot_password, bind.
    pose proof (request_password_reset_returns_true E e0 w0) as H.
    destruct (AuthService.request_password_reset E e0 w0) as [[x | b] w1];
      simpl in H; [discriminate | reflexivity]. }
  split; [apply request_password_reset_returns_true |].
  split; [apply Hroute |].
  intros e' w'. split.
  - now rewrite !request_password_reset_returns_true.
  - now rewrite !Hroute.
Qed.

(** ** Password login against a federated account *)

(** C10. When the store resolves the login email to a record that has no
    [hashed_password] and whose provider is the federated one, a password
    login fails with the provider-specific 400 answer, which is not the
    generic 401 "Invalid email or password", whatever password is supplied;
    nothing is written. *)
Theorem login_against_federated_account (E : Env) (login_data : UserLogin)
    (w : World) (id : string) (user_data : UserDoc)
    (rest : list (string * UserDoc)) :
  Firestore.where_email_limit_1 (l_email login_data) w
  = (inr ((id, user_data) :: rest), w) ->
  d_hashed_password user_data = None ->
  d_auth_provider user_data = Some "google" ->
  AuthService.login_user E login_data w = (inl provider_mismatch_on_login, w)
  /\ provider_mismatch_on_login <> invalid_email_or_password.
Proof.
  intros Hq Hpw Hprov. split; [| discriminate].
  unfold AuthService.login_user.
  erewrite try_except_inl.
  2: { rewrite (bind_inr _ _ _ _ _ Hq), Hpw. simpl.
       rewrite bool_decide_eq_true_2 by exact Hprov. reflexivity. }
  reflexivity.
Qed.

Lemma login_against_federated_account_witness :
  let w := Demo.at_time (Scenario.seconds 10) (snd Scenario.google_first_login) in
  AuthService.login_user Demo.env (mkUserLogin "bob@example.com" "guess") w
  = (inl provider_mismatch_on_login, w)
  /\ provider_mismatch_on_login <> invalid_email_or_password.
Proof.
  intros w.
  eapply (login_against_federated_account Demo.env
            (mkUserLogin "bob@example.com" "guess") w "uid-bob@example.com").
  - vm_compute. reflexivity.
  - reflexivity.
  - reflexivity.
Defined.

(** ** Where [password_changed_at] comes from *)

(** Bob's record, created by his first Google sign-in, has no
    [password_changed_at] (and no [hashed_password]). *)
Lemma federated_record_lacks_password_changed_at :
  exists tok d,
    fst Scenario.google_first_login = inr tok
    /\ Firestore.doc_lookup "uid-bob@example.com"
         (users (snd Scenario.google_first_login)) = Some d
    /\ d_auth_provider d = Some "google"
    /\ d_password_changed_at d = None.
Proof.
  eexists. eexists.
  split; [vm_compute; reflexivity |].
  split; [vm_compute; reflexivity |].
  split; reflexivity.
Qed.

Lemma register_user_runs E user_data w au :
  firestore_fault w = None ->
  List.filter (Firestore.has_email (r_email user_data)) (users w) = [] ->
  auth_create_user E (r_email user_data)
    (AuthService.nonempty (Some (r_password user_data)))
    (Some (r_full_name user_data)) = inr au ->
  exists w',
    AuthService.register_user E user_data w
    = (inr (mkRegisteredUser (au_uid au) (au_email au) (r_full_name user_data)
                             false (clock w)), w')
    /\ users w'
       = Firestore.doc_store (au_uid au)
           (mkUserDoc (Some (r_email user_data)) (Some (r_full_name user_data))
                      (Some false) (Some (clock w)) (Some (clock w)) (Some "email")
                      (Some (hash_password E (r_password user_data)))
                      (Some (clock w)) None None None)
           (users w).
Proof.
  intros Hf Hnone Hc.
  unfold AuthService.register_user, try_except, bind at 1,
    Firestore.where_email_limit_1, Firestore.call.
  rewrite Hf, Hnone.
  change (0 <? Z.of_nat (length (take 1 (@nil (string * UserDoc))))) with false.
  cbv beta iota.
  unfold firebase_client.create_user. rewrite Hc.
  unfold firebase_client.wrap, bind, ret, utcnow, Firestore.set, Firestore.call,
    try_except.
  cbv beta iota. rewrite Hf.
  unfold firebase_client.generate_email_verification_link, firebase_client.wrap,
    send_verification_email, send_email, ret, raise.
  destruct (auth_generate_email_verification_link E (r_email user_data));
    cbn [Firestore.with_users firestore_fault smtp_fault];
    try (eexists; split; reflexivity).
  destruct (smtp_fault w); eexists; split; reflexivity.
Qed.

Lemma google_auth_creates E id_token w idinfo e au :
  firestore_fault w = None ->
  verify_oauth2_token E id_token (GOOGLE_CLIENT_ID E) = inr idinfo ->
  AuthService.nonempty (g_email idinfo) = Some e ->
  List.filter (Firestore.has_email e) (users w) = [] ->
  (auth_create_user E e None (g_name idinfo) = inr au
   \/ ((exists msg, auth_create_user E e None (g_name idinfo) = inl msg)
       /\ auth_get_user_by_email E e = inr au)) ->
  exists tok,
    AuthService.google_auth E id_token w
    = (inr tok,
       Firestore.with_users
         (Firestore.doc_store (au_uid au)
            (mkUserDoc (Some e) (g_name idinfo) (Some true) (Some (clock w))
                       (Some (clock w)) (Some "google") None None
                       (g_picture idinfo) (g_sub idinfo) None)
            (users w)) w).
Proof.
  intros Hf Hv He Hnone Hau.
  unfold AuthService.google_auth, try_except at 1, bind at 1.
  rewrite Hv. unfold ret at 1. cbv beta iota. rewrite He.
  unfold bind at 1, Firestore.where_email_limit_1, Firestore.call.
  rewrite Hf, Hnone.
  change (take 1 (@nil (string * UserDoc))) with (@nil (string * UserDoc)).
  cbv beta iota.
  assert (Hid :
    try_except
      (firebase_user <- firebase_client.create_user E e None (g_name idinfo) ;;
       ret (au_uid firebase_user))
      (fun err =>
         try_except
           (firebase_user <- firebase_client.get_user_by_email E e ;;
            ret (au_uid firebase_user))
           (fun _ => raise err)) w = (inr (au_uid au), w)).
  { unfold try_except, bind, firebase_client.create_user,
      firebase_client.get_user_by_email, firebase_client.wrap.
    destruct Hau as [Hc | [[msg Hc] Hg]]; rewrite Hc; [reflexivity |].
    simpl. rewrite Hg. reflexivity. }
  rewrite (bind_bind_inr _ _ _ _ _ _ Hid).
  unfold bind at 1 2 3 4, utcnow, Firestore.set, Firestore.call.
  cbv beta iota. rewrite Hf. unfold ret at 1. cbv beta iota.
  unfold AuthService.issue_tokens.
  change (create_access_token E ?d None) with (issue E Access d None).
  change (create_refresh_token E ?d None) with (issue E Refresh d None).
  unfold bind. rewrite !issue_result. eexists. reflexivity.
Qed.

(** C9, as the code has it. With the store reachable: local registration of
    a fresh email creates the record with [password_changed_at] set to the
    time of creation; a successful password reset sets it to the time of the
    reset; and the federated path, creating the record of a first Google
    sign-in, leaves [password_changed_at] (and [hashed_password]) out. *)
Theorem password_changed_at_by_path (E : Env) (w : World) :
  firestore_fault w = None ->
  (forall user_data au,
     List.filter (Firestore.has_email (r_email user_data)) (users w) = [] ->
     auth_create_user E (r_email user_data)
       (AuthService.nonempty (Some (r_password user_data)))
       (Some (r_full_name user_data)) = inr au ->
     exists ru w' d,
       AuthService.register_user E user_data w = (inr ru, w')
       /\ Firestore.doc_lookup (ru_uid ru) (users w') = Some d
       /\ d_auth_provider d = Some "email"
       /\ d_password_changed_at d = Some (clock w))
  /\ (forall token new_password e id user_data rest au,
        verify_password_reset_token E token w = (inr e, w) ->
        Firestore.where_email_limit_1 e w = (inr ((id, user_data) :: rest), w) ->
        d_auth_provider user_data <> Some "google" ->
        auth_update_user E id new_password = inr au ->
        exists w' d,
          AuthService.reset_password E token new_password w = (inr true, w')
          /\ Firestore.doc_lookup id (users w') = Some d
          /\ d_password_changed_at d = Some (clock w))
  /\ (forall id_token idinfo e au,
        verify_oauth2_token E id_token (GOOGLE_CLIENT_ID E) = inr idinfo ->
        AuthService.nonempty (g_email idinfo) = Some e ->
        List.filter (Firestore.has_email e) (users w) = [] ->
        (auth_create_user E e None (g_name idinfo) = inr au
         \/ ((exists msg, auth_create_user E e None (g_name idinfo) = inl msg)
             /\ auth_get_user_by_email E e = inr au)) ->
        exists tok w' d,
          AuthService.google_auth E id_token w = (inr tok, w')
          /\ Firestore.doc_lookup (au_uid au) (users w') = Some d
          /\ d_auth_provider d = Some "google"
          /\ d_hashed_password d = None
          /\ d_password_changed_at d = None).
Proof.
  intros Hf. split; [| split].
  - intros user_data au Hnone Hc.
    destruct (register_user_runs E user_data w au Hf Hnone Hc) as (w' & Hrun & Hu).
    eexists. exists w'. eexists. split; [exact Hrun |].
    rewrite Hu. simpl. split; [apply doc_lookup_store_same |]. split; reflexivity.
  - intros token new_password e id user_data rest au Htok Hq Hprov Hupd.
    destruct (reset_password_runs E token new_password w e id user_data rest au
                Htok Hq Hprov Hupd) as (d0 & Hd0 & Hrun).
    eexists. eexists. split; [exact Hrun |]. simpl.
    split; [apply doc_lookup_store_same | reflexivity].
  - intros id_token idinfo e au Hv He Hnone Hau.
    destruct (google_auth_creates E id_token w idinfo e au Hf Hv He Hnone Hau)
      as (tok & Hrun).
    exists tok. eexists. eexists. split; [exact Hrun |]. simpl.
    split; [apply doc_lookup_store_same |]. repeat split.
Qed.

Lemma password_changed_at_by_path_witness :
  (exists ru w' d,
     AuthService.register_user Demo.env Scenario.alice (Demo.empty_world 0)
     = (inr ru, w')
     /\ Firestore.doc_lookup (ru_uid ru) (users w') = Some d
     /\ d_auth_provider d = Some "email"
     /\ d_password_changed_at d = Some 0)
  /\ (exists tok w' d,
        AuthService.google_auth Demo.env "bob@example.com" (Demo.empty_world 0)
        = (inr tok, w')
        /\ Firestore.doc_lookup "uid-bob@example.com" (users w') = Some d
        /\ d_auth_provider d = Some "google"
        /\ d_hashed_password d = None
        /\ d_password_changed_at d = None).
Proof.
  destruct (password_changed_at_by_path Demo.env (Demo.empty_world 0) eq_refl)
    as (Hreg & _ & Hgoogle).
  split.
  - apply (Hreg Scenario.alice
             (mkAuthUser "uid-alice@example.com" "alice@example.com" false));
      reflexivity.
  - apply (Hgoogle "bob@example.com"
             (mkIdInfo (Some "bob@example.com") (Some "G User") (Some "g-sub") None)
             "bob@example.com"
             (mkAuthUser "uid-bob@example.com" "bob@example.com" false));
      try reflexivity.
    left. reflexivity.
Defined.

(** * More properties of the code *)

(** ** The blacklist *)

Lemma world_eta w :
  mkWorld (blacklist w) (users w) (clock w) (firestore_fault w) (smtp_fault w)
          (outbox w) = w.
Proof. destruct w. reflexivity. Qed.

(** X1. [remove_token] undoes [add_token]: adding a token that was not
    blacklisted and removing it again gives back the world as it was;
    removing a token that is not there changes nothing and raises nothing;
    and after [remove_token] the token is not blacklisted, whatever came
    before. *)
Theorem remove_token_undoes_add_token (token : string) (w : World) :
  token ∉ blacklist w ->
  TokenBlacklist.remove_token token (snd (TokenBlacklist.add_token token w))
  = (inr tt, w)
  /\ TokenBlacklist.remove_token token w = (inr tt, w)
  /\ (forall w0,
        fst (TokenBlacklist.is_blacklisted token
               (snd (TokenBlacklist.remove_token token w0))) = inr false).
Proof.
  intros Hnot.
  assert (Hd : blacklist w ∖ {[token]} = blacklist w).
  { apply set_eq. intros x. rewrite elem_of_difference, elem_of_singleton.
    split; [tauto |]. intros Hx. split; [exact Hx |]. intros ->. tauto. }
  assert (Hu : ({[token]} ∪ blacklist w) ∖ {[token]} = blacklist w).
  { apply set_eq. intros x.
    rewrite elem_of_difference, elem_of_union, elem_of_singleton.
    split; [tauto |]. intros Hx. split; [tauto |]. intros ->. tauto. }
  split; [| split].
  - unfold TokenBlacklist.remove_token, TokenBlacklist.add_token. simpl.
    rewrite Hu. now rewrite world_eta.
  - unfold TokenBlacklist.remove_token. rewrite Hd. now rewrite world_eta.
  - intros w0. unfold TokenBlacklist.is_blacklisted, TokenBlacklist.remove_token.
    simpl. f_equal. apply bool_decide_eq_false_2.
    rewrite elem_of_difference, elem_of_singleton. tauto.
Qed.

Lemma remove_token_undoes_add_token_witness :
  TokenBlacklist.remove_token "t"
    (snd (TokenBlacklist.add_token "t" (Demo.empty_world 0)))
  = (inr tt, Demo.empty_world 0).
Proof.
  apply (remove_token_undoes_add_token "t" (Demo.empty_world 0)).
  simpl. apply not_elem_of_empty.
Defined.

(** What [get_current_user] reads of the world: whether the token is
    blacklisted, and the clock. *)
Lemma get_current_user_reads E token wa wb :
  (token ∈ blacklist wa <-> token ∈ blacklist wb) ->
  clock wa = clock wb ->
  fst (get_current_user E token wa) = fst (get_current_user E token wb).
Proof.
  intros Hb Hc.
  unfold get_current_user, verify_token, try_except, jwt_decode,
    TokenBlacklist.is_blacklisted, bind.
  rewrite (bool_decide_ext _ _ Hb).
  destruct (bool_decide (token ∈ blacklist wb)); [reflexivity |].
  destruct (jws_verify E token) as [msg | payload];
    unfold utcnow, ret, raise; cbv beta iota; [reflexivity |].
  rewrite Hc.
  destruct (c_exp payload) as [e |];
    [destruct (e <? timegm (clock wb)); [reflexivity |] |];
    (destruct (c_sub payload) as [sub |]; [| reflexivity]);
    destruct (negb (bool_decide (c_token_type payload = Some "access")));
    reflexivity.
Qed.

(** X2. Logging out one token, or taking one token off the blacklist, does not
    change the guard's verdict on any other token. *)
Theorem logout_affects_only_its_token (E : Env) (token other : string) (w : World) :
  other <> token ->
  fst (get_current_user E other (snd (logout token w)))
  = fst (get_current_user E other w)
  /\ fst (get_current_user E other (snd (TokenBlacklist.remove_token token w)))
     = fst (get_current_user E other w).
Proof.
  intros Hne. split; apply get_current_user_reads; try reflexivity; simpl.
  - rewrite elem_of_union, elem_of_singleton. tauto.
  - rewrite elem_of_difference, elem_of_singleton. tauto.
Qed.

Lemma logout_affects_only_its_token_witness :
  let w := Demo.at_time (Scenario.seconds 6) (snd Scenario.first_login) in
  fst (get_current_user Demo.env (access_token Scenario.old_tokens)
         (snd (logout (refresh_token Scenario.old_tokens) w)))
  = fst (get_current_user Demo.env (access_token Scenario.old_tokens) w).
Proof.
  intros w.
  apply (logout_affects_only_its_token Demo.env
           (refresh_token Scenario.old_tokens) (access_token Scenario.old_tokens) w).
  vm_compute. discriminate.
Defined.

(** ** Tokens: kinds, lifetimes, reset tokens *)

Lemma timegm_next a b : a + MICROS <= b -> timegm a < timegm b.
Proof.
  intros H. apply timegm_mono in H. unfold timegm, MICROS in *.
  replace (a + 1000000) with (a + 1 * 1000000) in H by lia.
  rewrite Z.div_add in H by lia. lia.
Qed.

Lemma verify_token_rejects_other_type E token expected payload w :
  jws_verify E token = inr payload ->
  c_token_type payload <> Some expected ->
  exists err, verify_token E token expected w = (inl err, w).
Proof.
  intros Hv Hty. unfold verify_token, try_except, jwt_decode, bind.
  rewrite Hv. unfold utcnow, ret, raise. cbv beta iota.
  destruct (c_exp payload) as [e |];
    [destruct (e <? timegm (clock w)); [eexists; reflexivity |] |];
    cbv beta iota; rewrite (bool_decide_eq_false_2 _ Hty);
    (destruct (c_sub payload) as [sub |]; eexists; reflexivity).
Qed.

Lemma verify_token_expired E token expected payload e w :
  jws_verify E token = inr payload ->
  c_exp payload = Some e -> e < timegm (clock w) ->
  verify_token E token expected w = (inl expired_error, w).
Proof.
  intros Hv He Hlt. unfold verify_token, try_except.
  now rewrite (bind_inl _ _ _ _ _ (jwt_decode_expired _ _ _ _ _ Hv He Hlt)).
Qed.

Lemma kind_str_inj k k' : kind_str k = kind_str k' -> k = k'.
Proof. destruct k, k'; simpl; intros H; try reflexivity; discriminate. Qed.

(** X3. A token issued as one kind is never accepted where the other kind is
    expected, at any time and for any payload; while it is unexpired and
    names a subject, the failure is the wrong-type error naming both
    kinds. *)
Theorem issued_token_is_rejected_as_other_kind (E : Env) (k k' : Kind)
    (data : Claims) (expires_delta : option Z) (w : World) :
  jose_contract E ->
  k <> k' ->
  exists token,
    issue E k data expires_delta w = (inr token, w)
    /\ (forall w', exists err,
          verify_token E token (kind_str k') w' = (inl err, w'))
    /\ (forall w' sub,
          clock w' <= clock w + lifetime E k expires_delta ->
          c_sub data = Some sub ->
          verify_token E token (kind_str k') w'
          = (inl (wrong_type_error (kind_str k') (Some (kind_str k))), w')).
Proof.
  intros Hjose Hk. eexists. split; [apply issue_result |].
  assert (Hty : Some (kind_str k) <> Some (kind_str k')).
  { intros [= H]. apply Hk, kind_str_inj, H. }
  split.
  - intros w'. eapply verify_token_rejects_other_type; [apply Hjose | exact Hty].
  - intros w' sub Hwin Hsub.
    rewrite (verify_token_live E _ (kind_str k') _ sub w' (Hjose _)); simpl.
    + now rewrite (bool_decide_eq_false_2 _ Hty).
    + intros x [= <-]. now apply timegm_mono.
    + exact Hsub.
Qed.

Lemma issued_token_is_rejected_as_other_kind_witness :
  exists token,
    issue Demo.env Refresh (mkClaims (Some "u1") (Some "a@b.c") None None None) None
          (Demo.empty_world 0) = (inr token, Demo.empty_world 0)
    /\ verify_token Demo.env token "access" (Demo.empty_world 60000000)
       = (inl (wrong_type_error "access" (Some "refresh")),
          Demo.empty_world 60000000).
Proof.
  destruct (issued_token_is_rejected_as_other_kind Demo.env Refresh Access
              (mkClaims (Some "u1") (Some "a@b.c") None None None) None
              (Demo.empty_world 0) demo_jose_contract)
    as (token & Hissue & _ & Hwrong).
  - discriminate.
  - exists token. split; [exact Hissue |].
    apply (Hwrong (Demo.empty_world 60000000) "u1"); [| reflexivity].
    vm_compute. discriminate.
Defined.

(** X4. Expiry is enforced: from one second after the end of its lifetime on, a
    token fails verification as expired, also against its own kind. *)
Theorem issued_token_expires (E : Env) (k : Kind) (data : Claims)
    (expires_delta : option Z) (w w' : World) :
  jose_contract E ->
  clock w + lifetime E k expires_delta + MICROS <= clock w' ->
  exists token,
    issue E k data expires_delta w = (inr token, w)
    /\ verify_token E token (kind_str k) w' = (inl expired_error, w').
Proof.
  intros Hjose Hlate. eexists. split; [apply issue_result |].
  eapply verify_token_expired; [apply Hjose | reflexivity |].
  now apply timegm_next.
Qed.

Lemma issued_token_expires_witness :
  exists token,
    issue Demo.env Access (mkClaims (Some "u1") (Some "a@b.c") None None None) None
          (Demo.empty_world 0) = (inr token, Demo.empty_world 0)
    /\ verify_token Demo.env token "access" (Demo.empty_world 1860000000)
       = (inl expired_error, Demo.empty_world 1860000000).
Proof.
  apply (issued_token_expires Demo.env Access
           (mkClaims (Some "u1") (Some "a@b.c") None None None) None
           (Demo.empty_world 0) (Demo.empty_world 1860000000)
           demo_jose_contract).
  vm_compute. discriminate.
Defined.



Lemma create_password_reset_token_result E e w :
  create_password_reset_token E e w
  = (inr (jws_sign E (mkClaims (Some e) None
                        (Some (timegm (clock w + timedelta_hours 1)))
                        (Some (timegm (clock w))) (Some "password_reset"))), w).
Proof. reflexivity. Qed.

Lemma verify_password_reset_token_live E token payload e w :
  jws_verify E token = inr payload ->
  (forall x, c_exp payload = Some x -> timegm (clock w) <= x) ->
  c_sub payload = Some e ->
  verify_password_reset_token E token w =
  if bool_decide (c_token_type payload = Some "password_reset")
  then (inr e, w)
  else (inl (Error JWTError
               "Invalid or expired reset token: Invalid token type for password reset"),
        w).
Proof.
  intros Hv Hlive Hsub. unfold verify_password_reset_token, try_except.
  rewrite (bind_inr _ _ _ _ _ (jwt_decode_live _ _ _ _ Hv Hlive)), Hsub.
  destruct (bool_decide (c_token_type payload = Some "password_reset"));
    reflexivity.
Qed.

Lemma verify_password_reset_token_expired E token payload x w :
  jws_verify E token = inr payload ->
  c_exp payload = Some x -> x < timegm (clock w) ->
  verify_password_reset_token E token w
  = (inl (Error JWTError "Invalid or expired reset token: Signature has expired."), w).
Proof.
  intros Hv Hx Hlt. unfold verify_password_reset_token, try_except.
  now rewrite (bind_inl _ _ _ _ _ (jwt_decode_expired _ _ _ _ _ Hv Hx Hlt)).
Qed.

(** X6. A password-reset token yields the email it was minted for at every time
    up to one hour after it was minted, and from one second past the hour on
    it fails as expired. *)
Theorem reset_token_round_trip (E : Env) (e : string) (w w' : World) :
  jose_contract E ->
  exists token,
    create_password_reset_token E e w = (inr token, w)
    /\ (clock w' <= clock w + timedelta_hours 1 ->
        verify_password_reset_token E token w' = (inr e, w'))
    /\ (clock w + timedelta_hours 1 + MICROS <= clock w' ->
        verify_password_reset_token E token w'
        = (inl (Error JWTError
                  "Invalid or expired reset token: Signature has expired."), w')).
Proof.
  intros Hjose. eexists. split; [apply create_password_reset_token_result |].
  split.
  - intros Hwin.
    rewrite (verify_password_reset_token_live E _ _ e w' (Hjose _)); simpl.
    + reflexivity.
    + intros x [= <-]. now apply timegm_mono.
    + reflexivity.
  - intros Hlate.
    eapply verify_password_reset_token_expired; [apply Hjose | reflexivity |].
    now apply timegm_next.
Qed.

Lemma reset_token_round_trip_witness :
  exists token,
    create_password_reset_token Demo.env "alice@example.com" (Demo.empty_world 0)
    = (inr token, Demo.empty_world 0)
    /\ verify_password_reset_token Demo.env token (Demo.empty_world 3600000000)
       = (inr "alice@example.com", Demo.empty_world 3600000000)
    /\ verify_password_reset_token Demo.env token (Demo.empty_world 3601000000)
       = (inl (Error JWTError
                 "Invalid or expired reset token: Signature has expired."),
          Demo.empty_world 3601000000).
Proof.
  destruct (reset_token_round_trip Demo.env "alice@example.com"
              (Demo.empty_world 0) (Demo.empty_world 3600000000)
              demo_jose_contract) as (token & Hmint & Hlive & _).
  destruct (reset_token_round_trip Demo.env "alice@example.com"
              (Demo.empty_world 0) (Demo.empty_world 3601000000)
              demo_jose_contract) as (token' & Hmint' & _ & Hlate).
  assert (Heq : token' = token) by congruence. subst token'.
  exists token. split; [exact Hmint |]. split.
  - apply Hlive. vm_compute. discriminate.
  - apply Hlate. vm_compute. discriminate.
Defined.

(** ** The guards *)

Lemma verify_token_cases E token expected w :
  (exists td, verify_token E token expected w = (inr td, w))
  \/ (exists msg, verify_token E token expected w = (inl (Error JWTError msg), w)).
Proof.
  unfold verify_token, try_except, jwt_decode, bind.
  destruct (jws_verify E token) as [msg | payload];
    unfold utcnow, ret, raise; cbv beta iota; [right; eexists; reflexivity |].
  destruct (c_exp payload) as [e |];
    [destruct (e <? timegm (clock w)); [right; eexists; reflexivity |] |];
    cbv beta iota;
    (destruct (c_sub payload) as [sub |]; [| right; eexists; reflexivity]);
    (destruct (negb (bool_decide (c_token_type payload = Some expected)));
       [right | left]; eexists; reflexivity).
Qed.

Lemma get_current_user_not_blacklisted E token w :
  token ∉ blacklist w ->
  get_current_user E token w
  = try_except (verify_token E token "access")
               (reraise_http_jwt "Invalid token: " "Authentication error: ") w.
Proof.
  intros H. unfold get_current_user, try_except, bind at 1,
    TokenBlacklist.is_blacklisted.
  now rewrite (bool_decide_eq_false_2 _ H).
Qed.

Lemma get_current_user_cases E token w :
  (exists td, (token ∉ blacklist w)
              /\ verify_token E token "access" w = (inr td, w)
              /\ get_current_user E token w = (inr td, w))
  \/ (exists detail,
        get_current_user E token w
        = (inl (HTTPException 401 detail bearer_headers), w)).
Proof.
  destruct (decide (token ∈ blacklist w)) as [Hin | Hout].
  - right. eexists. apply get_current_user_blacklisted, Hin.
  - rewrite (get_current_user_not_blacklisted _ _ _ Hout). unfold try_except.
    destruct (verify_token_cases E token "access" w) as [[td H] | [msg H]];
      rewrite H.
    + left. exists td. auto.
    + right. eexists. reflexivity.
Qed.

Lemma verify_refresh_token_cases E token w :
  (exists td, verify_token E token "refresh" w = (inr td, w)
              /\ verify_refresh_token E token w = (inr td, w))
  \/ (exists detail,
        verify_refresh_token E token w
        = (inl (HTTPException 401 detail bearer_headers), w)).
Proof.
  unfold verify_refresh_token, try_except.
  destruct (verify_token_cases E token "refresh" w) as [[td H] | [msg H]];
    rewrite H.
  - left. exists td. auto.
  - right. eexists. reflexivity.
Qed.

(** X7. Whatever string is presented, in whatever state of the world, each of
    the two token guards either accepts it or raises HTTP 401 with the
    [WWW-Authenticate: Bearer] header; no other status and no other
    exception comes out, and the world is left as it was. *)
Theorem token_guards_fail_with_401 (E : Env) (token : string) (w : World) :
  ((exists td, get_current_user E token w = (inr td, w))
   \/ (exists detail,
         get_current_user E token w
         = (inl (HTTPException 401 detail bearer_headers), w)))
  /\ ((exists td, verify_refresh_token E token w = (inr td, w))
      \/ (exists detail,
            verify_refresh_token E token w
            = (inl (HTTPException 401 detail bearer_headers), w))).
Proof.
  split.
  - destruct (get_current_user_cases E token w) as [(td & _ & _ & H) | H];
      [left; eauto | right; exact H].
  - destruct (verify_refresh_token_cases E token w) as [(td & _ & H) | H];
      [left; eauto | right; exact H].
Qed.

(** X8. What [get_current_user] accepts: only a token that is not on the
    blacklist, whose signature verifies, that is not past its expiry in whole
    seconds, names a subject and is of type access; the session is then that
    subject, the payload's email and the type access, and the world is as it
    was. *)
Theorem get_current_user_accepts_only (E : Env) (token : string) (w w' : World)
    (td : TokenData) :
  get_current_user E token w = (inr td, w') ->
  w' = w
  /\ (token ∉ blacklist w)
  /\ exists payload,
       jws_verify E token = inr payload
       /\ (forall e, c_exp payload = Some e -> timegm (clock w) <= e)
       /\ c_sub payload = Some (uid td)
       /\ c_token_type payload = Some "access"
       /\ td = mkTokenData (uid td) (c_email payload) "access".
Proof.
  intros H.
  destruct (get_current_user_cases E token w) as [(td' & Hout & Hv & H') | [d H']];
    rewrite H' in H; [| discriminate].
  injection H as <- <-. split; [reflexivity |]. split; [exact Hout |].
  apply verify_token_success in Hv.
  destruct Hv as (_ & payload & sub & Hp & Hs & Hty & Hlive & ->).
  exists payload. simpl. auto.
Qed.

(** X9. [get_current_active_user] never returns a user. With the store failing
    it raises 500 with the store's message; with the store up and no
    document for the session's uid it raises 404; with the document there it
    raises 500 on reading [current_user.iat]. Nothing is written in any of
    the three cases. *)
Theorem get_current_active_user_always_raises (E : Env) (current_user : TokenData)
    (w : World) :
  get_current_active_user E current_user w
  = (inl match firestore_fault w with
         | Some msg => HTTPException 500 ("Error fetching user data: " +:+ msg) []
         | None =>
             match Firestore.doc_lookup (uid current_user) (users w) with
             | None => HTTPException 404 "User not found" []
             | Some _ => guard_failure
             end
         end, w).
Proof.
  unfold get_current_active_user, try_except, bind at 1, Firestore.get,
    Firestore.call.
  destruct (firestore_fault w) as [msg |]; [reflexivity |].
  destruct (Firestore.doc_lookup (uid current_user) (users w)); reflexivity.
Qed.

(** ** Refreshing *)

(** X10. [/refresh] with a refresh token that verifies answers with a new pair
    for the same uid and email and writes nothing; the new access token is
    accepted by [get_current_user] in every world where it is not
    blacklisted, up to the end of its lifetime. *)
Theorem refresh_issues_tokens_for_the_same_subject (E : Env) (token : string)
    (w : World) (td : TokenData) :
  jose_contract E ->
  verify_refresh_token E token w = (inr td, w) ->
  exists tok,
    refresh_token_route E token w = (inr tok, w)
    /\ expires_in tok = ACCESS_TOKEN_EXPIRE_MINUTES E * 60
    /\ (forall w',
          access_token tok ∉ blacklist w' ->
          clock w' <= clock w + lifetime E Access None ->
          get_current_user E (access_token tok) w'
          = (inr (mkTokenData (uid td) (email td) "access"), w'))
    /\ (forall w',
          clock w' <= clock w + lifetime E Refresh None ->
          verify_refresh_token E (refresh_token tok) w'
          = (inr (mkTokenData (uid td) (email td) "refresh"), w')).
Proof.
  intros Hjose Hv.
  unfold refresh_token_route. rewrite (bind_inr _ _ _ _ _ Hv).
  unfold AuthService.refresh_access_token, AuthService.issue_tokens.
  change (create_access_token E ?d None) with (issue E Access d None).
  change (create_refresh_token E ?d None) with (issue E Refresh d None).
  unfold bind. rewrite !issue_result. cbv beta iota.
  eexists. split; [reflexivity |]. split; [reflexivity |]. split.
  - intros w' Hout Hwin. cbn [access_token].
    rewrite (get_current_user_not_blacklisted _ _ _ Hout).
    apply try_except_inr. cbn [access_token].
    rewrite (verify_token_live E _ "access" _ (uid td) w' (Hjose _)); simpl.
    + reflexivity.
    + intros x [= <-]. now apply timegm_mono.
    + reflexivity.
  - intros w' Hwin. unfold verify_refresh_token.
    apply try_except_inr. cbn [refresh_token].
    rewrite (verify_token_live E _ "refresh" _ (uid td) w' (Hjose _)); simpl.
    + reflexivity.
    + intros x [= <-]. now apply timegm_mono.
    + reflexivity.
Qed.

Lemma refresh_issues_tokens_for_the_same_subject_witness :
  let w := Demo.at_time (Scenario.seconds 600) (snd Scenario.first_login) in
  exists tok,
    refresh_token_route Demo.env (refresh_token Scenario.old_tokens) w
    = (inr tok, w)
    /\ get_current_user Demo.env (access_token tok) w
       = (inr (mkTokenData "uid-alice@example.com" (Some "alice@example.com")
                           "access"), w).
Proof.
  intros w.
  destruct (refresh_issues_tokens_for_the_same_subject Demo.env
              (refresh_token Scenario.old_tokens) w
              (mkTokenData "uid-alice@example.com" (Some "alice@example.com")
                           "refresh") demo_jose_contract)
    as (tok & Hroute & _ & Hacc & _).
  - vm_compute. reflexivity.
  - exists tok. split; [exact Hroute |].
    apply (Hacc w); [simpl; apply not_elem_of_empty | vm_compute; discriminate].
Defined.

Lemma get_current_user_accepts_only_witness :
  let w := Demo.at_time (Scenario.seconds 6) (snd Scenario.first_login) in
  (access_token Scenario.old_tokens ∉ blacklist w)
  /\ exists payload,
       jws_verify Demo.env (access_token Scenario.old_tokens) = inr payload
       /\ c_sub payload = Some "uid-alice@example.com"
       /\ c_token_type payload = Some "access".
Proof.
  intros w.
  destruct (get_current_user_accepts_only Demo.env
              (access_token Scenario.old_tokens) w w
              (mkTokenData "uid-alice@example.com" (Some "alice@example.com")
                           "access"))
    as (_ & Hout & payload & Hp & _ & Hs & Hty & _).
  - vm_compute. reflexivity.
  - split; [exact Hout |]. exists payload. auto.
Defined.

(** ** Session tokens and reset tokens do not mix *)

Lemma verify_password_reset_token_rejects E token payload w :
  jws_verify E token = inr payload ->
  c_token_type payload <> Some "password_reset" ->
  exists msg,
    verify_password_reset_token E token w
    = (inl (Error JWTError ("Invalid or expired reset token: " +:+ msg)), w).
Proof.
  intros Hv Hty. unfold verify_password_reset_token, try_except, jwt_decode, bind.
  rewrite Hv. unfold utcnow, ret, raise. cbv beta iota.
  destruct (c_exp payload) as [e |];
    [destruct (e <? timegm (clock w)); [eexists; reflexivity |] |];
    cbv beta iota; rewrite (bool_decide_eq_false_2 _ Hty);
    (destruct (c_sub payload) as [sub |]; eexists; reflexivity).
Qed.

(** X11. A session token of either kind never resets a password: presented to
    [reset_password], at any time, it is refused with 400 and nothing is
    written. And a password-reset token is never a session: both guards
    refuse it with 401, at any time. *)
Theorem session_and_reset_tokens_do_not_mix (E : Env) (k : Kind) (data : Claims)
    (expires_delta : option Z) (e new_password : string) (w w' : World) :
  jose_contract E ->
  (exists token,
     issue E k data expires_delta w = (inr token, w)
     /\ exists msg,
          AuthService.reset_password E token new_password w'
          = (inl (HTTPException 400
                    ("Password reset failed: " +:+
                     ("Invalid or expired reset token: " +:+ msg)) []), w'))
  /\ (exists token,
        create_password_reset_token E e w = (inr token, w)
        /\ (exists detail,
              get_current_user E token w'
              = (inl (HTTPException 401 detail bearer_headers), w'))
        /\ (exists detail,
              verify_refresh_token E token w'
              = (inl (HTTPException 401 detail bearer_headers), w'))).
Proof.
  intros Hjose. split.
  - eexists. split; [apply issue_result |].
    match goal with
    | |- context [AuthService.reset_password E (jws_sign E ?c)] =>
        destruct (verify_password_reset_token_rejects E _ c w' (Hjose c))
          as [msg Hmsg]; [destruct k; discriminate |]
    end.
    exists msg. unfold AuthService.reset_password.
    erewrite try_except_inl; [| eapply bind_inl, Hmsg]. reflexivity.
  - eexists. split; [apply create_password_reset_token_result |]. split.
    + destruct (get_current_user_cases E
                  (jws_sign E (mkClaims (Some e) None
                                 (Some (timegm (clock w + timedelta_hours 1)))
                                 (Some (timegm (clock w))) (Some "password_reset")))
                  w') as [(td & _ & Hv & _) | H]; [| exact H].
      match type of Hv with
      | verify_token E (jws_sign E ?c) _ _ = _ =>
          destruct (verify_token_rejects_other_type E _ "access" c w' (Hjose c))
            as [err Herr]; [discriminate |]
      end.
      rewrite Herr in Hv. discriminate.
    + destruct (verify_refresh_token_cases E
                  (jws_sign E (mkClaims (Some e) None
                                 (Some (timegm (clock w + timedelta_hours 1)))
                                 (Some (timegm (clock w))) (Some "password_reset")))
                  w') as [(td & Hv & _) | H]; [| exact H].
      match type of Hv with
      | verify_token E (jws_sign E ?c) _ _ = _ =>
          destruct (verify_token_rejects_other_type E _ "refresh" c w' (Hjose c))
            as [err Herr]; [discriminate |]
      end.
      rewrite Herr in Hv. discriminate.
Qed.

Lemma session_and_reset_tokens_do_not_mix_witness :
  let w := Demo.at_time (Scenario.seconds 10) (snd Scenario.first_login) in
  (exists msg,
     AuthService.reset_password Demo.env (access_token Scenario.old_tokens)
       "newpass456" w
     = (inl (HTTPException 400
               ("Password reset failed: " +:+
                ("Invalid or expired reset token: " +:+ msg)) []), w))
  /\ (exists detail,
        get_current_user Demo.env Scenario.reset_token w
        = (inl (HTTPException 401 detail bearer_headers), w)).
Proof.
  intros w.
  destruct (session_and_reset_tokens_do_not_mix Demo.env Access
              (mkClaims (Some "uid-alice@example.com") (Some "alice@example.com")
                        None None None)
              None "alice@example.com" "newpass456"
              (Demo.at_time (Scenario.seconds 5) Scenario.registered) w
              demo_jose_contract)
    as ((t1 & H1 & Hreset) & _).
  destruct (session_and_reset_tokens_do_not_mix Demo.env Access
              (mkClaims None None None None None)
              None "alice@example.com" "newpass456"
              (Demo.at_time (Scenario.seconds 9) (snd Scenario.first_login)) w
              demo_jose_contract)
    as (_ & (t2 & H2 & Hguard & _)).
  assert (E1 : t1 = access_token Scenario.old_tokens).
  { rewrite issue_result in H1. injection H1 as <-. vm_compute. reflexivity. }
  assert (E2 : t2 = Scenario.reset_token).
  { rewrite create_password_reset_token_result in H2. injection H2 as <-.
    vm_compute. reflexivity. }
  subst t1 t2. split; [exact Hreset | exact Hguard].
Defined.

(** ** Requesting a reset: what is left behind *)

(** X12. A reset request changes nothing at all (no mail, no write) when the
    email is unknown, when the store is failing, or when the SMTP server
    refuses the mail; the answer is [True] all the same. *)
Theorem request_password_reset_leaves_no_trace (E : Env) (e : string) (w : World) :
  List.filter (Firestore.has_email e) (users w) = []
  \/ firestore_fault w <> None \/ smtp_fault w <> None ->
  AuthService.request_password_reset E e w = (inr true, w).
Proof.
  intros H.
  unfold AuthService.request_password_reset, try_except, bind at 1,
    Firestore.where_email_limit_1, Firestore.call.
  destruct (firestore_fault w) as [msg |] eqn:Hf; [reflexivity |].
  destruct (List.filter (Firestore.has_email e) (users w)) as [| p l] eqn:Hl;
    [reflexivity |].
  destruct H as [H | [H | H]]; try discriminate; try congruence.
  change (Z.of_nat (length (take 1 (p :: l))) =? 0) with false. cbv beta iota.
  unfold create_password_reset_token, send_password_reset_email, send_email,
    bind, utcnow, ret.
  cbv beta iota. destruct (smtp_fault w); [reflexivity | congruence].
Qed.

Lemma request_password_reset_leaves_no_trace_witness :
  let w := Demo.at_time (Scenario.seconds 8) (snd Scenario.first_login) in
  AuthService.request_password_reset Demo.env "nobody@example.com" w = (inr true, w)
  /\ AuthService.request_password_reset Demo.env "alice@example.com"
       (Outage.smtp_down w) = (inr true, Outage.smtp_down w).
Proof.
  intros w. split.
  - apply (request_password_reset_leaves_no_trace Demo.env "nobody@example.com" w).
    left. reflexivity.
  - apply (request_password_reset_leaves_no_trace Demo.env "alice@example.com"
             (Outage.smtp_down w)).
    right. right. discriminate.
Defined.

(** X13. For a known email, with the store and the SMTP server up, a reset
    request hands exactly one message to the mail server: to that address,
    with a link to the frontend's reset page that carries a reset token;
    and that token, presented within the hour, verifies and yields the
    email. Nothing else in the world changes. *)
Theorem request_password_reset_mails_a_valid_token (E : Env) (e : string)
    (w : World) :
  jose_contract E ->
  firestore_fault w = None ->
  smtp_fault w = None ->
  List.filter (Firestore.has_email e) (users w) <> [] ->
  exists token,
    AuthService.request_password_reset E e w
    = (inr true,
       push_mail (mkMail e "Reset your SehatGuru password"
                         (FRONTEND_URL E +:+ "/reset-password?token=" +:+ token)) w)
    /\ (forall w', clock w' <= clock w + timedelta_hours 1 ->
          verify_password_reset_token E token w' = (inr e, w')).
Proof.
  intros Hjose Hf Hs Hl.
  exists (jws_sign E (mkClaims (Some e) None
                        (Some (timegm (clock w + timedelta_hours 1)))
                        (Some (timegm (clock w))) (Some "password_reset"))).
  split.
  - unfold AuthService.request_password_reset, try_except, bind at 1,
      Firestore.where_email_limit_1, Firestore.call.
    rewrite Hf.
    destruct (List.filter (Firestore.has_email e) (users w)) as [| p l];
      [congruence |].
    change (Z.of_nat (length (take 1 (p :: l))) =? 0) with false. cbv beta iota.
    unfold create_password_reset_token, send_password_reset_email, send_email,
      bind, utcnow, ret.
    cbv beta iota. rewrite Hs. reflexivity.
  - intros w' Hwin.
    rewrite (verify_password_reset_token_live E _ _ e w' (Hjose _)); simpl.
    + reflexivity.
    + intros x [= <-]. now apply timegm_mono.
    + reflexivity.
Qed.

Lemma request_password_reset_mails_a_valid_token_witness :
  let w := Demo.at_time (Scenario.seconds 9) (snd Scenario.first_login) in
  exists token,
    AuthService.request_password_reset Demo.env "alice@example.com" w
    = (inr true,
       push_mail (mkMail "alice@example.com" "Reset your SehatGuru password"
                    ("http://localhost:3000" +:+ "/reset-password?token=" +:+ token))
                 w)
    /\ verify_password_reset_token Demo.env token
         (Demo.at_time (Scenario.seconds 10) w)
       = (inr "alice@example.com", Demo.at_time (Scenario.seconds 10) w).
Proof.
  intros w.
  destruct (request_password_reset_mails_a_valid_token Demo.env
              "alice@example.com" w demo_jose_contract)
    as (token & Hrun & Hlive).
  - reflexivity.
  - reflexivity.
  - vm_compute. discriminate.
  - exists token. split; [exact Hrun |].
    apply Hlive. vm_compute. discriminate.
Defined.

(** ** Registration *)

(** X14. Registration fails without writing anything when the email is already
    in the collection (400) and when Firebase Auth refuses to create the
    user (500 with Firebase's message). *)
Theorem register_user_failures_write_nothing (E : Env) (user_data : UserRegister)
    (w : World) :
  firestore_fault w = None ->
  (List.filter (Firestore.has_email (r_email user_data)) (users w) <> [] ->
   AuthService.register_user E user_data w
   = (inl (HTTPException 400 "Email already registered" []), w))
  /\ (forall msg,
        List.filter (Firestore.has_email (r_email user_data)) (users w) = [] ->
        auth_create_user E (r_email user_data)
          (AuthService.nonempty (Some (r_password user_data)))
          (Some (r_full_name user_data)) = inl msg ->
        AuthService.register_user E user_data w
        = (inl (HTTPException 500
                  ("Registration failed: " +:+ ("Error creating user: " +:+ msg))
                  []), w)).
Proof.
  intros Hf. split.
  - intros Hl.
    unfold AuthService.register_user, try_except, bind at 1,
      Firestore.where_email_limit_1, Firestore.call.
    rewrite Hf.
    destruct (List.filter (Firestore.has_email (r_email user_data)) (users w))
      as [| p l]; [congruence |].
    reflexivity.
  - intros msg Hl Hc.
    unfold AuthService.register_user, try_except, bind at 1,
      Firestore.where_email_limit_1, Firestore.call.
    rewrite Hf, Hl.
    change (0 <? Z.of_nat (length (take 1 (@nil (string * UserDoc))))) with false.
    cbv beta iota.
    unfold firebase_client.create_user. rewrite Hc. reflexivity.
Qed.

Lemma register_user_failures_write_nothing_witness :
  AuthService.register_user Demo.env Scenario.alice Scenario.registered
  = (inl (HTTPException 400 "Email already registered" []), Scenario.registered)
  /\ AuthService.register_user Outage.env Scenario.alice (Demo.empty_world 0)
     = (inl (HTTPException 500
               ("Registration failed: " +:+ ("Error creating user: " +:+ "EMAIL_EXISTS"))
               []), Demo.empty_world 0).
Proof.
  split.
  - apply (proj1 (register_user_failures_write_nothing Demo.env Scenario.alice
                    Scenario.registered eq_refl)).
    vm_compute. discriminate.
  - apply (proj2 (register_user_failures_write_nothing Outage.env Scenario.alice
                    (Demo.empty_world 0) eq_refl) "EMAIL_EXISTS");
      reflexivity.
Defined.

(** X15. Registration does not depend on the verification mail: with the store
    up, the email fresh and the Firebase user created, the answer and the
    stored record are the same whether or not a verification link could be
    generated and whether or not the SMTP server took the mail; the outbox
    gains the one verification message exactly when both worked. *)
Theorem register_user_survives_mail_failure (E : Env) (user_data : UserRegister)
    (w : World) (au : AuthUser) :
  firestore_fault w = None ->
  List.filter (Firestore.has_email (r_email user_data)) (users w) = [] ->
  auth_create_user E (r_email user_data)
    (AuthService.nonempty (Some (r_password user_data)))
    (Some (r_full_name user_data)) = inr au ->
  exists w',
    AuthService.register_user E user_data w
    = (inr (mkRegisteredUser (au_uid au) (au_email au) (r_full_name user_data)
                             false (clock w)), w')
    /\ Firestore.doc_lookup (au_uid au) (users w')
       = Some (mkUserDoc (Some (r_email user_data)) (Some (r_full_name user_data))
                         (Some false) (Some (clock w)) (Some (clock w))
                         (Some "email")
                         (Some (hash_password E (r_password user_data)))
                         (Some (clock w)) None None None)
    /\ blacklist w' = blacklist w
    /\ outbox w'
       = match auth_generate_email_verification_link E (r_email user_data),
               smtp_fault w with
         | inr link, None =>
             (outbox w ++ [mkMail (r_email user_data)
                                  "Verify your SehatGuru account" link])%list
         | _, _ => outbox w
         end.
Proof.
  intros Hf Hnone Hc.
  unfold AuthService.register_user, try_except, bind at 1,
    Firestore.where_email_limit_1, Firestore.call.
  rewrite Hf, Hnone.
  change (0 <? Z.of_nat (length (take 1 (@nil (string * UserDoc))))) with false.
  cbv beta iota.
  unfold firebase_client.create_user. rewrite Hc.
  unfold firebase_client.wrap, bind, ret, utcnow, Firestore.set, Firestore.call,
    try_except.
  cbv beta iota. rewrite Hf.
  unfold firebase_client.generate_email_verification_link, firebase_client.wrap,
    send_verification_email, send_email, ret, raise.
  destruct (auth_generate_email_verification_link E (r_email user_data));
    cbn [Firestore.with_users firestore_fault smtp_fault];
    [| destruct (smtp_fault w)];
    (eexists; split; [reflexivity |]; cbn;
     split; [apply doc_lookup_store_same |]; split; reflexivity).
Qed.

Lemma register_user_survives_mail_failure_witness :
  exists w',
    AuthService.register_user Demo.env Scenario.alice
      (Outage.smtp_down (Demo.empty_world 0))
    = (inr (mkRegisteredUser "uid-alice@example.com" "alice@example.com" "Alice"
                             false 0), w')
    /\ outbox w' = [].
Proof.
  destruct (register_user_survives_mail_failure Demo.env Scenario.alice
              (Outage.smtp_down (Demo.empty_world 0))
              (mkAuthUser "uid-alice@example.com" "alice@example.com" false)
              eq_refl eq_refl eq_refl) as (w' & Hrun & _ & _ & Hout).
  exists w'. split; [exact Hrun | exact Hout].
Defined.

(** ** Login *)

Lemma issue_tokens_result E id e w :
  AuthService.issue_tokens E id e w = (inr (tokens_at E id e (clock w)), w).
Proof.
  unfold AuthService.issue_tokens.
  change (create_access_token E ?d None) with (issue E Access d None).
  change (create_refresh_token E ?d None) with (issue E Refresh d None).
  unfold bind. now rewrite !issue_result.
Qed.

Lemma where_email_filter e w id d rest :
  Firestore.where_email_limit_1 e w = (inr ((id, d) :: rest), w) ->
  firestore_fault w = None
  /\ exists l, List.filter (Firestore.has_email e) (users w) = (id, d) :: l.
Proof.
  unfold Firestore.where_email_limit_1, Firestore.call.
  destruct (firestore_fault w); [discriminate |].
  intros [= H]. split; [reflexivity |].
  destruct (List.filter (Firestore.has_email e) (users w)) as [| p l];
    [discriminate |].
  simpl in H. injection H as -> _. eauto.
Qed.

Lemma where_email_of_filter e w p l :
  firestore_fault w = None ->
  List.filter (Firestore.has_email e) (users w) = p :: l ->
  Firestore.where_email_limit_1 e w = (inr [p], w).
Proof.
  intros Hf Hl. unfold Firestore.where_email_limit_1, Firestore.call.
  now rewrite Hf, Hl.
Qed.

Lemma login_user_runs E ld w id d rest h d0 :
  Firestore.where_email_limit_1 (l_email ld) w = (inr ((id, d) :: rest), w) ->
  AuthService.nonempty (d_hashed_password d) = Some h ->
  verify_password E (l_password ld) h = true ->
  Firestore.doc_lookup id (users w) = Some d0 ->
  AuthService.login_user E ld w
  = (inr (tokens_at E id (Some (l_email ld)) (clock w)),
     Firestore.with_users
       (Firestore.doc_store id
          (set_updated_at (clock w) (set_last_login (clock w) d0)) (users w)) w).
Proof.
  intros Hq Hh Hv Hd0.
  destruct (where_email_filter _ _ _ _ _ Hq) as [Hf _].
  unfold AuthService.login_user. apply try_except_inr.
  rewrite (bind_inr _ _ _ _ _ Hq), Hh, Hv. cbn [negb].
  unfold bind at 1 2 3, utcnow, Firestore.update, Firestore.call.
  cbv beta iota. rewrite Hf, Hd0.
  now rewrite issue_tokens_result.
Qed.

(** X16. Only a Google account tells itself apart: for an unknown email, for a
    wrong password on an account that has one, and for an account without a
    password whose provider is not Google, a password login fails with the
    same 401 "Invalid email or password" and writes nothing. *)
Theorem login_failures_are_indistinguishable (E : Env) (login_data : UserLogin)
    (w : World) :
  firestore_fault w = None ->
  (List.filter (Firestore.has_email (l_email login_data)) (users w) = []
   \/ exists id d l,
        List.filter (Firestore.has_email (l_email login_data)) (users w)
        = (id, d) :: l
        /\ ((exists h, AuthService.nonempty (d_hashed_password d) = Some h
                       /\ verify_password E (l_password login_data) h = false)
            \/ (AuthService.nonempty (d_hashed_password d) = None
                /\ d_auth_provider d <> Some "google"))) ->
  AuthService.login_user E login_data w = (inl invalid_email_or_password, w).
Proof.
  intros Hf H.
  unfold AuthService.login_user, try_except, bind at 1,
    Firestore.where_email_limit_1, Firestore.call.
  rewrite Hf.
  destruct H as [Hl | (id & d & l & Hl & H)]; rewrite Hl; [reflexivity |].
  cbn [take]. cbv beta iota.
  destruct H as [(h & Hh & Hv) | (Hh & Hp)]; rewrite Hh.
  - rewrite Hv. reflexivity.
  - rewrite (bool_decide_eq_false_2 _ Hp). reflexivity.
Qed.

Lemma login_failures_are_indistinguishable_witness :
  let w := Demo.at_time (Scenario.seconds 20) Scenario.registered in
  AuthService.login_user Demo.env (mkUserLogin "nobody@example.com" "x") w
  = (inl invalid_email_or_password, w)
  /\ AuthService.login_user Demo.env (mkUserLogin "alice@example.com" "wrong") w
     = (inl invalid_email_or_password, w).
Proof.
  intros w. split.
  - apply (login_failures_are_indistinguishable Demo.env
             (mkUserLogin "nobody@example.com" "x") w eq_refl).
    left. reflexivity.
  - apply (login_failures_are_indistinguishable Demo.env
             (mkUserLogin "alice@example.com" "wrong") w eq_refl).
    right. eexists. eexists. eexists. split; [reflexivity |].
    left. eexists. split; reflexivity.
Defined.



(** ** From one request to the next *)

Lemma has_email_snd e id id' d :
  Firestore.has_email e (id, d) = Firestore.has_email e (id', d).
Proof. reflexivity. Qed.

Lemma filter_store_fresh e id d c :
  List.filter (Firestore.has_email e) c = [] ->
  Firestore.has_email e (id, d) = true ->
  List.filter (Firestore.has_email e) (Firestore.doc_store id d c) = [(id, d)].
Proof.
  intros Hc Hd. induction c as [| [k d0] c IH]; simpl.
  - now rewrite Hd.
  - simpl in Hc.
    destruct (Firestore.has_email e (k, d0)) eqn:Hk; [discriminate |].
    destruct (String.eqb k id) eqn:Hkid; simpl.
    + apply String.eqb_eq in Hkid. subst k. now rewrite Hd, Hc.
    + rewrite Hk. now apply IH.
Qed.

Lemma doc_lookup_well_keyed id d c :
  List.NoDup (List.map fst c) -> In (id, d) c ->
  Firestore.doc_lookup id c = Some d.
Proof.
  induction c as [| [k d0] c IH]; simpl; [tauto |].
  intros Hnd [[= -> ->] | Hin].
  - now rewrite String.eqb_refl.
  - inversion Hnd as [| ? ? Hk Hnd']; subst.
    destruct (String.eqb k id) eqn:Hkid; [| now apply IH].
    apply String.eqb_eq in Hkid. subst k. exfalso. apply Hk.
    change id with (fst (id, d)). now apply in_map.
Qed.

Lemma filter_store_same (P : string * UserDoc -> bool) id d d' rest c :
  List.NoDup (List.map fst c) ->
  List.filter P c = (id, d) :: rest ->
  P (id, d') = true ->
  List.filter P (Firestore.doc_store id d' c) = (id, d') :: rest.
Proof.
  intros Hnd Hc Hd'. induction c as [| [k d0] c IH]; simpl in *; [discriminate |].
  inversion Hnd as [| ? ? Hk Hnd']; subst.
  destruct (String.eqb k id) eqn:Hkid.
  - apply String.eqb_eq in Hkid. subst k. simpl. rewrite Hd'.
    destruct (P (id, d0)).
    + inversion Hc; subst. reflexivity.
    + exfalso. apply Hk. change id with (fst (id, d)). apply in_map.
      assert (Hin : In (id, d) (List.filter P c)) by (rewrite Hc; now left).
      apply filter_In in Hin. tauto.
  - simpl. destruct (P (k, d0)).
    + inversion Hc; subst.
      rewrite String.eqb_refl in Hkid. discriminate.
    + now apply IH.
Qed.

Lemma register_user_world E user_data w au :
  firestore_fault w = None ->
  List.filter (Firestore.has_email (r_email user_data)) (users w) = [] ->
  auth_create_user E (r_email user_data)
    (AuthService.nonempty (Some (r_password user_data)))
    (Some (r_full_name user_data)) = inr au ->
  exists w',
    AuthService.register_user E user_data w
    = (inr (mkRegisteredUser (au_uid au) (au_email au) (r_full_name user_data)
                             false (clock w)), w')
    /\ users w'
       = Firestore.doc_store (au_uid au)
           (mkUserDoc (Some (r_email user_data)) (Some (r_full_name user_data))
                      (Some false) (Some (clock w)) (Some (clock w)) (Some "email")
                      (Some (hash_password E (r_password user_data)))
                      (Some (clock w)) None None None)
           (users w)
    /\ firestore_fault w' = None.
Proof.
  intros Hf Hnone Hc.
  unfold AuthService.register_user, try_except, bind at 1,
    Firestore.where_email_limit_1, Firestore.call.
  rewrite Hf, Hnone.
  change (0 <? Z.of_nat (length (take 1 (@nil (string * UserDoc))))) with false.
  cbv beta iota.
  unfold firebase_client.create_user. rewrite Hc.
  unfold firebase_client.wrap, bind, ret, utcnow, Firestore.set, Firestore.call,
    try_except.
  cbv beta iota. rewrite Hf.
  unfold firebase_client.generate_email_verification_link, firebase_client.wrap,
    send_verification_email, send_email, ret, raise.
  destruct (auth_generate_email_verification_link E (r_email user_data));
    cbn [Firestore.with_users firestore_fault smtp_fault];
    [| destruct (smtp_fault w)];
    (eexists; split; [reflexivity |]; cbn; split; [reflexivity | exact Hf]).
Qed.

(** X18. Register, then log in. With the store up, a fresh email, the Firebase
    user created, and a password helper that accepts a password against its
    own non-empty hash: registration succeeds, and a login with the same
    email and password, at any later time, succeeds and hands out the token
    pair for the uid Firebase gave. *)
Theorem register_then_login (E : Env) (user_data : UserRegister) (w : World)
    (au : AuthUser) (t : Z) :
  firestore_fault w = None ->
  List.filter (Firestore.has_email (r_email user_data)) (users w) = [] ->
  auth_create_user E (r_email user_data)
    (AuthService.nonempty (Some (r_password user_data)))
    (Some (r_full_name user_data)) = inr au ->
  hash_password E (r_password user_data) <> "" ->
  verify_password E (r_password user_data)
    (hash_password E (r_password user_data)) = true ->
  exists ru w1 w2,
    AuthService.register_user E user_data w = (inr ru, w1)
    /\ ru_uid ru = au_uid au
    /\ AuthService.login_user E
         (mkUserLogin (r_email user_data) (r_password user_data))
         (Demo.at_time t w1)
       = (inr (tokens_at E (au_uid au) (Some (r_email user_data)) t), w2).
Proof.
  intros Hf Hnone Hc Hne Hv.
  destruct (register_user_world E user_data w au Hf Hnone Hc)
    as (w1 & Hrun & Hu & Hf1).
  pose (doc := mkUserDoc (Some (r_email user_data)) (Some (r_full_name user_data))
                         (Some false) (Some (clock w)) (Some (clock w))
                         (Some "email")
                         (Some (hash_password E (r_password user_data)))
                         (Some (clock w)) None None None).
  assert (Hlogin := login_user_runs E
            (mkUserLogin (r_email user_data) (r_password user_data))
            (Demo.at_time t w1) (au_uid au) doc []
            (hash_password E (r_password user_data)) doc).
  eexists. exists w1. eexists. split; [exact Hrun |]. split; [reflexivity |].
  apply Hlogin.
  - apply where_email_of_filter with (l := []); [exact Hf1 |].
    cbn [Demo.at_time users l_email]. rewrite Hu.
    apply filter_store_fresh; [exact Hnone |].
    unfold Firestore.has_email. cbn. apply String.eqb_refl.
  - cbn. destruct (String.eqb_spec (hash_password E (r_password user_data)) "");
      [contradiction | reflexivity].
  - exact Hv.
  - cbn [Demo.at_time users]. rewrite Hu. apply doc_lookup_store_same.
Qed.

Lemma register_then_login_witness :
  exists ru w1 w2,
    AuthService.register_user Demo.env Scenario.alice (Demo.empty_world 0)
    = (inr ru, w1)
    /\ ru_uid ru = "uid-alice@example.com"
    /\ AuthService.login_user Demo.env
         (mkUserLogin "alice@example.com" "oldpass123")
         (Demo.at_time (Scenario.seconds 5) w1)
       = (inr (tokens_at Demo.env "uid-alice@example.com"
                         (Some "alice@example.com") (Scenario.seconds 5)), w2).
Proof.
  apply (register_then_login Demo.env Scenario.alice (Demo.empty_world 0)
           (mkAuthUser "uid-alice@example.com" "alice@example.com" false)
           (Scenario.seconds 5)); try reflexivity.
  discriminate.
Defined.

Lemma login_user_wrong_password E ld w id d rest h :
  Firestore.where_email_limit_1 (l_email ld) w = (inr ((id, d) :: rest), w) ->
  AuthService.nonempty (d_hashed_password d) = Some h ->
  verify_password E (l_password ld) h = false ->
  AuthService.login_user E ld w = (inl invalid_email_or_password, w).
Proof.
  intros Hq Hh Hv. unfold AuthService.login_user.
  erewrite try_except_inl.
  2: { rewrite (bind_inr _ _ _ _ _ Hq), Hh, Hv. reflexivity. }
  reflexivity.
Qed.

Lemma nonempty_hash E p :
  hash_password E p <> "" ->
  AuthService.nonempty (Some (hash_password E p)) = Some (hash_password E p).
Proof.
  intros H. unfold AuthService.nonempty.
  destruct (String.eqb_spec (hash_password E p) ""); [contradiction | reflexivity].
Qed.

(** The record a reset writes, and how the next query finds it. *)
Lemma reset_password_world E token new_password w e id user_data rest au :
  well_keyed w ->
  verify_password_reset_token E token w = (inr e, w) ->
  Firestore.where_email_limit_1 e w = (inr ((id, user_data) :: rest), w) ->
  d_auth_provider user_data <> Some "google" ->
  auth_update_user E id new_password = inr au ->
  let d' := set_updated_at (clock w)
              (set_password_changed_at (clock w)
                 (set_hashed_password (hash_password E new_password) user_data)) in
  exists w1,
    AuthService.reset_password E token new_password w = (inr true, w1)
    /\ w1 = Firestore.with_users (Firestore.doc_store id d' (users w)) w
    /\ (forall t, Firestore.where_email_limit_1 e (Demo.at_time t w1)
                  = (inr [(id, d')], Demo.at_time t w1))
    /\ Firestore.doc_lookup id (users w1) = Some d'.
Proof.
  intros Hk Htok Hq Hprov Hupd d'.
  destruct (where_email_filter _ _ _ _ _ Hq) as (Hf & l & Hl).
  assert (Hin : In (id, user_data) (List.filter (Firestore.has_email e) (users w)))
    by (rewrite Hl; now left).
  apply filter_In in Hin. destruct Hin as [Hin He].
  destruct (reset_password_runs E token new_password w e id user_data rest au
              Htok Hq Hprov Hupd) as (d0 & Hd0 & Hrun).
  rewrite (doc_lookup_well_keyed id user_data (users w) Hk Hin) in Hd0.
  injection Hd0 as <-.
  eexists. split; [exact Hrun |]. split; [reflexivity |]. split.
  - intros t. apply (where_email_of_filter _ _ _ l); [exact Hf |].
    cbn [Demo.at_time Firestore.with_users users].
    apply (filter_store_same _ id user_data d' l (users w) Hk Hl). exact He.
  - apply doc_lookup_store_same.
Qed.

(** X19. Reset, then log in. On a well-keyed collection, with a password helper
    that accepts the new password against its own non-empty hash and refuses
    the old one against it: after a successful reset, a login with the old
    password fails with the generic 401 and a login with the new password
    succeeds, at any later time. *)
Theorem reset_password_switches_the_password (E : Env)
    (token new_password old_password : string) (w : World) (e id : string)
    (user_data : UserDoc) (rest : list (string * UserDoc)) (au : AuthUser)
    (t : Z) :
  well_keyed w ->
  verify_password_reset_token E token w = (inr e, w) ->
  Firestore.where_email_limit_1 e w = (inr ((id, user_data) :: rest), w) ->
  d_auth_provider user_data <> Some "google" ->
  auth_update_user E id new_password = inr au ->
  hash_password E new_password <> "" ->
  verify_password E new_password (hash_password E new_password) = true ->
  verify_password E old_password (hash_password E new_password) = false ->
  exists w1,
    AuthService.reset_password E token new_password w = (inr true, w1)
    /\ AuthService.login_user E (mkUserLogin e old_password) (Demo.at_time t w1)
       = (inl invalid_email_or_password, Demo.at_time t w1)
    /\ exists w2,
         AuthService.login_user E (mkUserLogin e new_password) (Demo.at_time t w1)
         = (inr (tokens_at E id (Some e) t), w2).
Proof.
  intros Hk Htok Hq Hprov Hupd Hne Hnew Hold.
  destruct (reset_password_world E token new_password w e id user_data rest au
              Hk Htok Hq Hprov Hupd) as (w1 & Hrun & Hw1 & Hq1 & Hd1).
  exists w1. split; [exact Hrun |]. split.
  - eapply (login_user_wrong_password E (mkUserLogin e old_password)).
    + apply Hq1.
    + cbn. now apply nonempty_hash.
    + exact Hold.
  - eexists.
    eapply (login_user_runs E (mkUserLogin e new_password) (Demo.at_time t w1)).
    + apply Hq1.
    + cbn. now apply nonempty_hash.
    + exact Hnew.
    + exact Hd1.
Qed.

Lemma reset_password_switches_the_password_witness :
  let w := Demo.at_time (Scenario.seconds 10) (snd Scenario.first_login) in
  exists w1,
    AuthService.reset_password Demo.env Scenario.reset_token "newpass456" w
    = (inr true, w1)
    /\ AuthService.login_user Demo.env
         (mkUserLogin "alice@example.com" "oldpass123")
         (Demo.at_time (Scenario.seconds 12) w1)
       = (inl invalid_email_or_password, Demo.at_time (Scenario.seconds 12) w1)
    /\ exists w2,
         AuthService.login_user Demo.env
           (mkUserLogin "alice@example.com" "newpass456")
           (Demo.at_time (Scenario.seconds 12) w1)
         = (inr (tokens_at Demo.env "uid-alice@example.com"
                           (Some "alice@example.com") (Scenario.seconds 12)), w2).
Proof.
  intros w.
  eapply (reset_password_switches_the_password Demo.env Scenario.reset_token
            "newpass456" "oldpass123" w "alice@example.com"
            "uid-alice@example.com").
  - vm_compute. repeat constructor. intros H. inversion H.
  - vm_compute. reflexivity.
  - vm_compute. reflexivity.
  - vm_compute. discriminate.
  - reflexivity.
  - discriminate.
  - reflexivity.
  - reflexivity.
Defined.

Lemma verify_password_reset_token_reads_only_the_clock E token wa wb :
  clock wa = clock wb ->
  fst (verify_password_reset_token E token wa)
  = fst (verify_password_reset_token E token wb)
  /\ snd (verify_password_reset_token E token wa) = wa.
Proof.
  intros Hc.
  unfold verify_password_reset_token, try_except, jwt_decode.
  destruct (jws_verify E token) as [msg | payload];
    unfold bind, utcnow, ret, raise; cbv beta iota; [split; reflexivity |].
  rewrite Hc.
  destruct (c_exp payload) as [x |];
    [destruct (x <? timegm (clock wb)); [split; reflexivity |] |];
    (destruct (c_sub payload) as [sub |]; [| split; reflexivity]);
    destruct (negb (bool_decide (c_token_type payload = Some "password_reset")));
    split; reflexivity.
Qed.

(** X20. A reset token is not used up: on a well-keyed collection, after a
    successful reset, the same token presented again while it still
    verifies resets the password a second time, and the record then holds
    the hash of the second password and the time of the second reset. *)
Theorem reset_token_can_be_replayed (E : Env) (token p1 p2 : string) (w : World)
    (e id : string) (user_data : UserDoc) (rest : list (string * UserDoc))
    (au1 au2 : AuthUser) (t : Z) :
  well_keyed w ->
  verify_password_reset_token E token w = (inr e, w) ->
  verify_password_reset_token E token (Demo.at_time t w)
  = (inr e, Demo.at_time t w) ->
  Firestore.where_email_limit_1 e w = (inr ((id, user_data) :: rest), w) ->
  d_auth_provider user_data <> Some "google" ->
  auth_update_user E id p1 = inr au1 ->
  auth_update_user E id p2 = inr au2 ->
  exists w1 w2 d,
    AuthService.reset_password E token p1 w = (inr true, w1)
    /\ AuthService.reset_password E token p2 (Demo.at_time t w1) = (inr true, w2)
    /\ Firestore.doc_lookup id (users w2) = Some d
    /\ d_hashed_password d = Some (hash_password E p2)
    /\ d_password_changed_at d = Some t.
Proof.
  intros Hk Htok Htok' Hq Hprov Hu1 Hu2.
  destruct (reset_password_world E token p1 w e id user_data rest au1
              Hk Htok Hq Hprov Hu1) as (w1 & Hrun & Hw1 & Hq1 & Hd1).
  assert (Htok1 : verify_password_reset_token E token (Demo.at_time t w1)
                  = (inr e, Demo.at_time t w1)).
  { destruct (verify_password_reset_token_reads_only_the_clock E token
                (Demo.at_time t w1) (Demo.at_time t w) eq_refl) as [Hfst Hsnd].
    rewrite Htok' in Hfst. simpl in Hfst.
    destruct (verify_password_reset_token E token (Demo.at_time t w1))
      as [r w']. simpl in *. now subst. }
  destruct (reset_password_runs E token p2 (Demo.at_time t w1) e id _ [] au2
              Htok1 (Hq1 t)) as (d0 & Hd0 & Hrun2); [exact Hprov | exact Hu2 |].
  exists w1. eexists. eexists. split; [exact Hrun |]. split; [exact Hrun2 |].
  cbn. split; [apply doc_lookup_store_same |]. split; reflexivity.
Qed.

Lemma reset_token_can_be_replayed_witness :
  let w := Demo.at_time (Scenario.seconds 10) (snd Scenario.first_login) in
  exists w1 w2 d,
    AuthService.reset_password Demo.env Scenario.reset_token "newpass456" w
    = (inr true, w1)
    /\ AuthService.reset_password Demo.env Scenario.reset_token "third789"
         (Demo.at_time (Scenario.seconds 600) w1) = (inr true, w2)
    /\ Firestore.doc_lookup "uid-alice@example.com" (users w2) = Some d
    /\ d_hashed_password d = Some "hash:third789"
    /\ d_password_changed_at d = Some (Scenario.seconds 600).
Proof.
  intros w.
  eapply (reset_token_can_be_replayed Demo.env Scenario.reset_token
            "newpass456" "third789" w "alice@example.com"
            "uid-alice@example.com").
  - vm_compute. repeat constructor. intros H. inversion H.
  - vm_compute. reflexivity.
  - vm_compute. reflexivity.
  - vm_compute. reflexivity.
  - vm_compute. discriminate.
  - reflexivity.
  - reflexivity.
Defined.

Lemma jws_sign_injective E c1 c2 :
  jose_contract E -> jws_sign E c1 = jws_sign E c2 -> c1 = c2.
Proof.
  intros Hjose H. pose proof (Hjose c1) as H1. rewrite H, Hjose in H1.
  now injection H1.
Qed.

(** X21. The two tokens of one login are different strings, so the logout that
    blacklists the access token does not blacklist the refresh token. *)
Theorem login_tokens_are_distinct (E : Env) (login_data : UserLogin)
    (w w1 : World) (tok : Token) :
  jose_contract E ->
  AuthService.login_user E login_data w = (inr tok, w1) ->
  access_token tok <> refresh_token tok
  /\ (refresh_token tok ∉ blacklist w1 ->
      refresh_token tok ∉ blacklist (snd (logout (access_token tok) w1))).
Proof.
  intros Hjose Hlogin.
  destruct (login_user_success _ _ _ _ _ Hlogin) as (id & -> & _ & _).
  cbn [access_token refresh_token].
  assert (Hne : forall a b x y i,
             jws_sign E (mkClaims a b x i (Some "access"))
             <> jws_sign E (mkClaims a b y i (Some "refresh"))).
  { intros a b x y i H. apply (jws_sign_injective E _ _ Hjose) in H.
    discriminate. }
  split; [apply Hne |].
  intros Hout. rewrite logout_world. simpl.
  rewrite elem_of_union, elem_of_singleton. intros [H | H]; [| tauto].
  symmetry in H. revert H. apply Hne.
Qed.

Lemma login_tokens_are_distinct_witness :
  access_token Scenario.old_tokens <> refresh_token Scenario.old_tokens.
Proof.
  apply (login_tokens_are_distinct Demo.env
           (mkUserLogin "alice@example.com" "oldpass123")
           (Demo.at_time (Scenario.seconds 5) Scenario.registered)
           (snd Scenario.first_login) Scenario.old_tokens demo_jose_contract).
  vm_compute. reflexivity.
Defined.

(** ** Google sign-in *)

(** X22. Google sign-in merges by email: when the verified email resolves to a
    record, whatever its provider and whether or not it has a password, the
    caller is logged in as that record's id without any password being
    asked; only [updated_at] is written, the password hash and the provider
    stay. *)
Theorem google_auth_logs_into_existing_account (E : Env) (id_token : string)
    (w : World) (idinfo : IdInfo) (e id : string) (d d0 : UserDoc)
    (rest : list (string * UserDoc)) :
  verify_oauth2_token E id_token (GOOGLE_CLIENT_ID E) = inr idinfo ->
  AuthService.nonempty (g_email idinfo) = Some e ->
  Firestore.where_email_limit_1 e w = (inr ((id, d) :: rest), w) ->
  Firestore.doc_lookup id (users w) = Some d0 ->
  exists w' d',
    AuthService.google_auth E id_token w
    = (inr (tokens_at E id (Some e) (clock w)), w')
    /\ Firestore.doc_lookup id (users w') = Some d'
    /\ d' = set_updated_at (clock w) d0
    /\ d_hashed_password d' = d_hashed_password d0
    /\ d_auth_provider d' = d_auth_provider d0
    /\ blacklist w' = blacklist w.
Proof.
  intros Hv He Hq Hd0.
  destruct (where_email_filter _ _ _ _ _ Hq) as [Hf _].
  eexists. eexists. split.
  - unfold AuthService.google_auth. apply try_except_inr.
    unfold bind at 1. rewrite Hv. unfold ret at 1. cbv beta iota. rewrite He.
    rewrite (bind_inr _ _ _ _ _ Hq).
    unfold bind at 1 2 3, utcnow, Firestore.update, Firestore.call.
    cbv beta iota. rewrite Hf, Hd0. unfold ret at 1. cbv beta iota.
    now rewrite issue_tokens_result.
  - cbn. split; [apply doc_lookup_store_same |]. repeat split.
Qed.

Lemma google_auth_logs_into_existing_account_witness :
  let w := Demo.at_time (Scenario.seconds 20) Scenario.registered in
  exists w' d',
    AuthService.google_auth Demo.env "alice@example.com" w
    = (inr (tokens_at Demo.env "uid-alice@example.com" (Some "alice@example.com")
                      (Scenario.seconds 20)), w')
    /\ Firestore.doc_lookup "uid-alice@example.com" (users w') = Some d'
    /\ d_auth_provider d' = Some "email"
    /\ d_hashed_password d' = Some "hash:oldpass123".
Proof.
  intros w.
  edestruct (google_auth_logs_into_existing_account Demo.env "alice@example.com" w
               (mkIdInfo (Some "alice@example.com") (Some "G User") (Some "g-sub")
                         None)
               "alice@example.com" "uid-alice@example.com")
    as (w' & d' & Hrun & Hd & _ & Hh & Hp & _).
  - reflexivity.
  - reflexivity.
  - vm_compute. reflexivity.
  - vm_compute. reflexivity.
  - exists w', d'. split; [exact Hrun |]. split; [exact Hd |].
    split; [rewrite Hp | rewrite Hh]; reflexivity.
Defined.

(** X23. How Google sign-in fails, each time without writing anything: an ID
    token Google's verifier refuses gives 401 with the verifier's message;
    an identity without an email gives 400; and when, for a new email,
    Firebase Auth can neither create the user nor find one by email, the
    answer is 401 with the error of the creation, not of the lookup. *)
Theorem google_auth_failures (E : Env) (id_token : string) (w : World) :
  (forall msg,
     verify_oauth2_token E id_token (GOOGLE_CLIENT_ID E) = inl msg ->
     AuthService.google_auth E id_token w
     = (inl (HTTPException 401 ("Google authentication failed: " +:+ msg) []), w))
  /\ (forall idinfo,
        verify_oauth2_token E id_token (GOOGLE_CLIENT_ID E) = inr idinfo ->
        AuthService.nonempty (g_email idinfo) = None ->
        AuthService.google_auth E id_token w
        = (inl (HTTPException 400 "Email not provided by Google" []), w))
  /\ (forall idinfo e msg msg',
        verify_oauth2_token E id_token (GOOGLE_CLIENT_ID E) = inr idinfo ->
        AuthService.nonempty (g_email idinfo) = Some e ->
        firestore_fault w = None ->
        List.filter (Firestore.has_email e) (users w) = [] ->
        auth_create_user E e None (g_name idinfo) = inl msg ->
        auth_get_user_by_email E e = inl msg' ->
        AuthService.google_auth E id_token w
        = (inl (HTTPException 401
                  ("Google authentication failed: " +:+
                   ("Error creating user: " +:+ msg)) []), w)).
Proof.
  split; [| split].
  - intros msg Hv. unfold AuthService.google_auth, try_except, bind at 1.
    rewrite Hv. reflexivity.
  - intros idinfo Hv He. unfold AuthService.google_auth, try_except, bind at 1.
    rewrite Hv. unfold ret at 1. cbv beta iota. rewrite He. reflexivity.
  - intros idinfo e msg msg' Hv He Hf Hnone Hc Hg.
    unfold AuthService.google_auth, try_except at 1, bind at 1.
    rewrite Hv. unfold ret at 1. cbv beta iota. rewrite He.
    unfold bind at 1, Firestore.where_email_limit_1, Firestore.call.
    rewrite Hf, Hnone.
    change (take 1 (@nil (string * UserDoc))) with (@nil (string * UserDoc)).
    cbv beta iota.
    unfold try_except, bind, firebase_client.create_user,
      firebase_client.get_user_by_email, firebase_client.wrap.
    rewrite Hc. cbn. rewrite Hg. reflexivity.
Qed.

Lemma google_auth_failures_witness :
  AuthService.google_auth Outage.env "bad" (Demo.empty_world 0)
  = (inl (HTTPException 401 ("Google authentication failed: " +:+ "Token expired")
            []), Demo.empty_world 0)
  /\ AuthService.google_auth Outage.env "" (Demo.empty_world 0)
     = (inl (HTTPException 400 "Email not provided by Google" []),
        Demo.empty_world 0)
  /\ AuthService.google_auth Outage.env "bob@example.com" (Demo.empty_world 0)
     = (inl (HTTPException 401
               ("Google authentication failed: " +:+
                ("Error creating user: " +:+ "EMAIL_EXISTS")) []),
        Demo.empty_world 0).
Proof.
  split; [| split].
  - apply (proj1 (google_auth_failures Outage.env "bad" (Demo.empty_world 0))).
    reflexivity.
  - apply (proj1 (proj2 (google_auth_failures Outage.env "" (Demo.empty_world 0)))
             (mkIdInfo None (Some "G User") (Some "g-sub") None));
      reflexivity.
  - apply (proj2 (proj2 (google_auth_failures Outage.env "bob@example.com"
                           (Demo.empty_world 0)))
             (mkIdInfo (Some "bob@example.com") (Some "G User") (Some "g-sub") None)
             "bob@example.com" "EMAIL_EXISTS" "USER_NOT_FOUND");
      reflexivity.
Defined.

(** ** Deleting an account *)

Lemma doc_lookup_remove_same id c :
  Firestore.doc_lookup id (Accounts.doc_remove id c) = None.
Proof.
  induction c as [| [k d] c IH]; simpl; [reflexivity |].
  destruct (String.eqb k id) eqn:Hk; simpl; [exact IH | now rewrite Hk].
Qed.

Lemma doc_lookup_remove_other id id' c :
  id' <> id ->
  Firestore.doc_lookup id' (Accounts.doc_remove id c) = Firestore.doc_lookup id' c.
Proof.
  intros Hne. induction c as [| [k d] c IH]; simpl; [reflexivity |].
  destruct (String.eqb k id) eqn:Hk; simpl.
  - apply String.eqb_eq in Hk. subst k.
    destruct (String.eqb_spec id id'); [congruence | exact IH].
  - destruct (String.eqb k id'); [reflexivity | exact IH].
Qed.

Lemma delete_user_account_runs http_str auth_delete_user id w :
  firestore_fault w = None ->
  auth_delete_user id = inr tt ->
  Accounts.delete_user_account http_str auth_delete_user id w
  = (inr true, Firestore.with_users (Accounts.doc_remove id (users w)) w).
Proof.
  intros Hf Hd.
  unfold Accounts.delete_user_account, try_except, bind,
    Accounts.firebase_delete_user, Accounts.firestore_delete, Firestore.call.
  rewrite Hd. unfold ret. cbv beta iota. rewrite Hf. reflexivity.
Qed.

(** X24. Deleting an account: when Firebase Auth refuses, the call raises 500
    with Firebase's message and the Firestore record is not touched; when
    Firebase Auth agrees, the record of that uid is gone afterwards, every
    other record is as before, and the blacklist is not touched. *)
Theorem delete_user_account_removes_one_record (http_str : Z -> string -> string)
    (auth_delete_user : string -> string + unit) (id : string) (w : World) :
  firestore_fault w = None ->
  (forall msg,
     auth_delete_user id = inl msg ->
     Accounts.delete_user_account http_str auth_delete_user id w
     = (inl (HTTPException 500
               ("Account deletion failed: " +:+ ("Error deleting user: " +:+ msg))
               []), w))
  /\ (auth_delete_user id = inr tt ->
      exists w',
        Accounts.delete_user_account http_str auth_delete_user id w = (inr true, w')
        /\ Firestore.doc_lookup id (users w') = None
        /\ (forall id', id' <> id ->
              Firestore.doc_lookup id' (users w') = Firestore.doc_lookup id' (users w))
        /\ blacklist w' = blacklist w).
Proof.
  intros Hf. split.
  - intros msg Hd.
    unfold Accounts.delete_user_account, try_except, bind at 1,
      Accounts.firebase_delete_user.
    rewrite Hd. reflexivity.
  - intros Hd. eexists.
    split; [apply (delete_user_account_runs _ _ _ _ Hf Hd) |]. cbn.
    split; [apply doc_lookup_remove_same |].
    split; [intros id' Hne; now apply doc_lookup_remove_other | reflexivity].
Qed.

Lemma delete_user_account_removes_one_record_witness :
  let w := snd Scenario.first_login in
  (exists w',
     Accounts.delete_user_account Outage.http_str Outage.auth_delete_user
       "uid-alice@example.com" w = (inr true, w')
     /\ Firestore.doc_lookup "uid-alice@example.com" (users w') = None)
  /\ Accounts.delete_user_account Outage.http_str Outage.auth_delete_user
       "uid-bob@example.com" w
     = (inl (HTTPException 500
               ("Account deletion failed: " +:+
                ("Error deleting user: " +:+ "USER_NOT_FOUND")) []), w).
Proof.
  intros w. split.
  - destruct (proj2 (delete_user_account_removes_one_record Outage.http_str
                       Outage.auth_delete_user "uid-alice@example.com" w eq_refl)
                eq_refl) as (w' & Hrun & Hgone & _).
    exists w'. split; [exact Hrun | exact Hgone].
  - apply (proj1 (delete_user_account_removes_one_record Outage.http_str
                    Outage.auth_delete_user "uid-bob@example.com" w eq_refl)).
    reflexivity.
Defined.

(** X25. Deleting the account does not end its session: after [/delete-account]
    has succeeded with an access token, the record is gone, but the same
    token is still accepted by [get_current_user] (so by every route behind
    it), while the routes that load the user answer 404. *)
Theorem deleted_account_keeps_its_session (E : Env)
    (http_str : Z -> string -> string)
    (auth_delete_user : string -> string + unit) (token : string) (w : World)
    (td : TokenData) :
  get_current_user E token w = (inr td, w) ->
  firestore_fault w = None ->
  auth_delete_user (uid td) = inr tt ->
  exists w',
    Accounts.delete_account E http_str auth_delete_user token w
    = (inr (mkMessageResponse "Account has been deleted successfully." true), w')
    /\ Firestore.doc_lookup (uid td) (users w') = None
    /\ get_current_user E token w' = (inr td, w')
    /\ session_guard E token w' = (inl (HTTPException 404 "User not found" []), w').
Proof.
  intros Hg Hf Hd.
  pose (w' := Firestore.with_users (Accounts.doc_remove (uid td) (users w)) w).
  assert (Hg' : get_current_user E token w' = (inr td, w')).
  { pose proof (get_current_user_reads E token w' w) as Hr.
    rewrite Hg in Hr. simpl in Hr.
    destruct (get_current_user_cases E token w') as [(td' & _ & _ & H) | [dt H]];
      rewrite H in Hr |- *; simpl in Hr;
      specialize (Hr (conj (fun x => x) (fun x => x)) eq_refl); congruence. }
  exists w'. split; [| split; [| split]].
  - unfold Accounts.delete_account.
    rewrite (bind_inr _ _ _ _ _ Hg).
    rewrite (bind_inr _ _ _ _ _ (delete_user_account_runs _ _ _ _ Hf Hd)).
    reflexivity.
  - apply doc_lookup_remove_same.
  - exact Hg'.
  - unfold session_guard. rewrite (bind_inr _ _ _ _ _ Hg').
    unfold get_current_active_user, try_except, bind at 1, Firestore.get,
      Firestore.call.
    cbn [w' Firestore.with_users firestore_fault users]. rewrite Hf.
    now rewrite doc_lookup_remove_same.
Qed.

Lemma deleted_account_keeps_its_session_witness :
  let w := Demo.at_time (Scenario.seconds 6) (snd Scenario.first_login) in
  exists w',
    Accounts.delete_account Demo.env Outage.http_str Outage.auth_delete_user
      (access_token Scenario.old_tokens) w
    = (inr (mkMessageResponse "Account has been deleted successfully." true), w')
    /\ get_current_user Demo.env (access_token Scenario.old_tokens) w'
       = (inr (mkTokenData "uid-alice@example.com" (Some "alice@example.com")
                           "access"), w').
Proof.
  intros w.
  destruct (deleted_account_keeps_its_session Demo.env Outage.http_str
              Outage.auth_delete_user (access_token Scenario.old_tokens) w
              (mkTokenData "uid-alice@example.com" (Some "alice@example.com")
                           "access"))
    as (w' & Hrun & _ & Hg & _).
  - vm_compute. reflexivity.
  - reflexivity.
  - reflexivity.
  - exists w'. split; [exact Hrun | exact Hg].
Defined.

(** ** The verification mail *)

(** X26. [/verify-email] answers by the link alone: once Firebase Auth has
    generated the link the route reports "Verification email has been sent."
    whether the SMTP server took the message or refused it (in which case
    nothing was sent); only a failure to generate the link gives 500. *)
Theorem request_email_verification_ignores_smtp (E : Env)
    (http_str : Z -> string -> string) (e : string) (w : World) :
  (forall link,
     auth_generate_email_verification_link E e = inr link ->
     Accounts.request_email_verification E http_str e w
     = (inr (mkMessageResponse "Verification email has been sent." true),
        match smtp_fault w with
        | None => push_mail (mkMail e "Verify your SehatGuru account" link) w
        | Some _ => w
        end))
  /\ (forall msg,
        auth_generate_email_verification_link E e = inl msg ->
        Accounts.request_email_verification E http_str e w
        = (inl (HTTPException 500
                  ("Failed to send verification email: " +:+
                   ("Error generating verification link: " +:+ msg)) []), w)).
Proof.
  split.
  - intros link Hl.
    unfold Accounts.request_email_verification, try_except, bind,
      firebase_client.generate_email_verification_link, firebase_client.wrap,
      send_verification_email, send_email.
    rewrite Hl. unfold ret. cbv beta iota.
    destruct (smtp_fault w); reflexivity.
  - intros msg Hl.
    unfold Accounts.request_email_verification, try_except, bind,
      firebase_client.generate_email_verification_link, firebase_client.wrap.
    rewrite Hl. reflexivity.
Qed.

Lemma request_email_verification_ignores_smtp_witness :
  let w := Outage.smtp_down (Demo.empty_world 0) in
  Accounts.request_email_verification Demo.env Outage.http_str "alice@example.com" w
  = (inr (mkMessageResponse "Verification email has been sent." true), w)
  /\ Accounts.request_email_verification Outage.env Outage.http_str
       "alice@example.com" w
     = (inl (HTTPException 500
               ("Failed to send verification email: " +:+
                ("Error generating verification link: " +:+ "QUOTA_EXCEEDED")) []),
        w).
Proof.
  intros w. split.
  - apply (proj1 (request_email_verification_ignores_smtp Demo.env Outage.http_str
                    "alice@example.com" w)
             ("https://verify.example/" +:+ "alice@example.com")).
    reflexivity.
  - apply (proj2 (request_email_verification_ignores_smtp Outage.env
                    Outage.http_str "alice@example.com" w) "QUOTA_EXCEEDED").
    reflexivity.
Defined.

(** ** The admin route *)

(** X27. [/admin/delete-user-by-email] goes by Firebase Auth alone. When Firebase
    Auth's lookup fails with a message that contains [USER_NOT_FOUND], the
    route answers normally with [success = False] and deletes nothing, also
    when the collection holds a record with that email; any other lookup
    failure gives 500; and when the lookup and the deletion in Firebase Auth
    succeed, the record stored under the Firebase uid is gone. *)
Theorem admin_delete_goes_by_firebase (E : Env) (http_str : Z -> string -> string)
    (auth_delete_user : string -> string + unit) (e : string) (w : World) :
  (forall msg,
     auth_get_user_by_email E e = inl msg ->
     Accounts.contains "USER_NOT_FOUND" msg = true ->
     Accounts.admin_delete_user_by_email E http_str auth_delete_user e w
     = (inr (mkMessageResponse ("User " +:+ e +:+ " not found in Firebase Auth")
                               false), w))
  /\ (forall msg,
        auth_get_user_by_email E e = inl msg ->
        Accounts.contains "USER_NOT_FOUND" msg = false ->
        Accounts.admin_delete_user_by_email E http_str auth_delete_user e w
        = (inl (HTTPException 500 ("Error deleting user: " +:+ msg) []), w))
  /\ (forall au,
        auth_get_user_by_email E e = inr au ->
        auth_delete_user (au_uid au) = inr tt ->
        firestore_fault w = None ->
        exists w',
          Accounts.admin_delete_user_by_email E http_str auth_delete_user e w
          = (inr (mkMessageResponse
                    ("User " +:+ e +:+ " deleted from Firebase Auth and Firestore")
                    true), w')
          /\ Firestore.doc_lookup (au_uid au) (users w') = None
          /\ (forall id', id' <> au_uid au ->
                Firestore.doc_lookup id' (users w')
                = Firestore.doc_lookup id' (users w))).
Proof.
  split; [| split].
  - intros msg Hg Hc.
    unfold Accounts.admin_delete_user_by_email, try_except, bind at 1,
      firebase_client.get_user_by_email.
    rewrite Hg. unfold raise at 1. cbv beta iota.
    cbn [exn_str]. rewrite Hc. reflexivity.
  - intros msg Hg Hc.
    unfold Accounts.admin_delete_user_by_email, try_except, bind at 1,
      firebase_client.get_user_by_email.
    rewrite Hg. unfold raise at 1. cbv beta iota.
    cbn [exn_str]. rewrite Hc. reflexivity.
  - intros au Hg Hd Hf.
    unfold Accounts.admin_delete_user_by_email, try_except, bind,
      firebase_client.get_user_by_email, Accounts.firebase_delete_user,
      Accounts.firestore_delete, Firestore.call.
    rewrite Hg. unfold ret at 1. cbv beta iota. rewrite Hd.
    unfold ret. cbv beta iota. rewrite Hf.
    eexists. split; [reflexivity |]. cbn.
    split; [apply doc_lookup_remove_same |].
    intros id' Hne. now apply doc_lookup_remove_other.
Qed.

Lemma admin_delete_goes_by_firebase_witness :
  let w := snd Scenario.first_login in
  Accounts.admin_delete_user_by_email Outage.env Outage.http_str
    Outage.auth_delete_user "alice@example.com" w
  = (inr (mkMessageResponse
            ("User " +:+ "alice@example.com" +:+ " not found in Firebase Auth")
            false), w)
  /\ exists w',
       Accounts.admin_delete_user_by_email Demo.env Outage.http_str
         Outage.auth_delete_user "alice@example.com" w
       = (inr (mkMessageResponse
                 ("User " +:+ "alice@example.com" +:+
                  " deleted from Firebase Auth and Firestore") true), w')
       /\ Firestore.doc_lookup "uid-alice@example.com" (users w') = None.
Proof.
  intros w. split.
  - apply (proj1 (admin_delete_goes_by_firebase Outage.env Outage.http_str
                    Outage.auth_delete_user "alice@example.com" w)
             "USER_NOT_FOUND"); reflexivity.
  - destruct (proj2 (proj2 (admin_delete_goes_by_firebase Demo.env Outage.http_str
                              Outage.auth_delete_user "alice@example.com" w))
                (mkAuthUser "uid-alice@example.com" "alice@example.com" false)
                eq_refl eq_refl eq_refl) as (w' & Hrun & Hgone & _).
    exists w'. split; [exact Hrun | exact Hgone].
Defined.
